(* ===================================================================== *)
(*  Kali MCP server (src/server.py): a shallow embedding of the          *)
(*  execution gatekeeper and the properties its specification states.    *)
(*                                                                       *)
(*  Python values are modelled as follows                                *)
(*    str             string (one ascii per character)                   *)
(*    int             Z                                                  *)
(*    Optional[T]     option T                                           *)
(*    Dict[str, str]  gmap string string                                 *)
(*    List[T]         list T                                             *)
(*    exceptions      the [Raise] case of [result]                       *)
(*  and the host (executable search path, file system, child processes)  *)
(*  as a record of oracles plus an explicit state that is threaded       *)
(*  through every call that touches it.                                  *)
(* ===================================================================== *)

From Stdlib Require Import ZArith Lia Ascii String Sorted.
From stdpp Require Import gmap strings list fin_maps.

Local Open Scope string_scope.

(* --------------------------------------------------------------------- *)
(*  Python's str methods used by the server                              *)
(* --------------------------------------------------------------------- *)

Module PyStr.

(** [s.startswith(p)] *)
Fixpoint startswith (p s : string) : bool :=
  match p, s with
  | EmptyString, _ => true
  | String a p', String b s' => Ascii.eqb a b && startswith p' s'
  | String _ _, EmptyString => false
  end.

(** [sub in s] *)
Fixpoint contains (sub s : string) : bool :=
  startswith sub s ||
  match s with
  | EmptyString => false
  | String _ s' => contains sub s'
  end.

(** [c in s] for a single character [c] *)
Fixpoint has_char (c : ascii) (s : string) : bool :=
  match s with
  | EmptyString => false
  | String a s' => Ascii.eqb c a || has_char c s'
  end.

(** The scan of [s.replace(old, new)] for a non-empty [old]: occurrences
    are found left to right and do not overlap; [skip] counts the
    characters of the occurrence just replaced that are still to be
    passed over. *)
Fixpoint replace_from (skip : nat) (old new s : string) : string :=
  match s with
  | EmptyString => EmptyString
  | String c s' =>
      match skip with
      | S k => replace_from k old new s'
      | O =>
          if startswith old s
          then new ++ replace_from (String.length old - 1) old new s'
          else String c (replace_from O old new s')
      end
  end.

Definition replace (old new s : string) : string := replace_from O old new s.

(** [s.split(sep)] for a one-character separator: never returns the
    empty list, and keeps empty fields. *)
Fixpoint split (sep : ascii) (s : string) : list string :=
  match s with
  | EmptyString => [EmptyString]
  | String c s' =>
      if Ascii.eqb c sep then EmptyString :: split sep s'
      else match split sep s' with
           | [] => [String c EmptyString]
           | f :: fs => String c f :: fs
           end
  end.

(** [sep.join(parts)] *)
Fixpoint join (sep : string) (parts : list string) : string :=
  match parts with
  | [] => EmptyString
  | [p] => p
  | p :: ps => p ++ sep ++ join sep ps
  end.

(** [s[:n]] for a Python integer [n]: a negative bound counts from the
    end of the string. *)
Fixpoint take (n : nat) (s : string) : string :=
  match n, s with
  | O, _ => EmptyString
  | _, EmptyString => EmptyString
  | S k, String c s' => String c (take k s')
  end.

Definition len (s : string) : Z := Z.of_nat (String.length s).

Definition slice_to (n : Z) (s : string) : string :=
  if (0 <=? n)%Z then take (Z.to_nat n) s
  else take (Z.to_nat (len s + n)) s.

(** Truth value of a string: the empty string is false. *)
Definition truthy (s : string) : bool :=
  match s with EmptyString => false | String _ _ => true end.

(** Characters for which [str.isspace] holds, among the first 256. *)
Definition isspace (c : ascii) : bool :=
  let n := nat_of_ascii c in
  (((9 <=? n) && (n <=? 13)) || ((28 <=? n) && (n <=? 32))
   || (n =? 133) || (n =? 160))%nat.

Fixpoint lstrip (s : string) : string :=
  match s with
  | EmptyString => EmptyString
  | String c s' => if isspace c then lstrip s' else s
  end.

Fixpoint rstrip (s : string) : string :=
  match s with
  | EmptyString => EmptyString
  | String c s' =>
      match rstrip s' with
      | EmptyString => if isspace c then EmptyString else String c EmptyString
      | r => String c r
      end
  end.

(** [s.strip()] *)
Definition strip (s : string) : string := rstrip (lstrip s).

End PyStr.

(* --------------------------------------------------------------------- *)
(*  posixpath.normpath (the pure Python definition of the standard       *)
(*  library)                                                             *)
(* --------------------------------------------------------------------- *)

Module PosixPath.

Definition sep : ascii := "/"%char.

(** Number of initial slashes that normpath keeps: POSIX allows one or
    two initial slashes, and treats three or more as a single slash. *)
Definition initial_slashes (path : string) : nat :=
  if PyStr.startswith "/" path then
    if PyStr.startswith "//" path && negb (PyStr.startswith "///" path)
    then 2 else 1
  else 0.

(** The loop over the components; [new_comps] is kept in reverse, so
    that its head is [new_comps[-1]]. *)
Fixpoint norm_comps (initial : nat) (comps : list string)
         (new_comps : list string) : list string :=
  match comps with
  | [] => new_comps
  | comp :: rest =>
      if String.eqb comp "" || String.eqb comp "." then
        norm_comps initial rest new_comps
      else if negb (String.eqb comp "..")
              || ((initial =? 0)%nat && match new_comps with [] => true | _ => false end)
              || match new_comps with
                 | last :: _ => String.eqb last ".."
                 | [] => false
                 end
      then norm_comps initial rest (comp :: new_comps)
      else match new_comps with
           | _ :: popped => norm_comps initial rest popped
           | [] => norm_comps initial rest new_comps
           end
  end.

Fixpoint repeat_sep (n : nat) : string :=
  match n with O => EmptyString | S k => String sep (repeat_sep k) end.

Definition normpath (path : string) : string :=
  if String.eqb path "" then "."
  else
    let initial := initial_slashes path in
    let comps := rev (norm_comps initial (PyStr.split sep path) []) in
    let joined := PyStr.join "/" comps in
    let path' := if (initial =? 0)%nat then joined else repeat_sep initial ++ joined in
    if String.eqb path' "" then "." else path'.

End PosixPath.

(* --------------------------------------------------------------------- *)
(*  Security utilities: sanitize_path                                    *)
(* --------------------------------------------------------------------- *)

(** [sanitize_path(path)] *)
Definition sanitize_path (path : string) : string :=
  if negb (PyStr.truthy path) then ""
  else
    (* Remove any path traversal attempts *)
    let path := PyStr.replace "//" "/" (PyStr.replace ".." "" path) in
    (* Ensure it's within allowed directories *)
    let path := if negb (PyStr.startswith "/" path) then "/" ++ path else path in
    PosixPath.normpath path.


(* --------------------------------------------------------------------- *)
(*  re.match(r'^[a-zA-Z0-9_-]+$', v)                                     *)
(* --------------------------------------------------------------------- *)

Module Re.

Definition newline : ascii := "010"%char.

(** The character class [a-zA-Z0-9_-]. *)
Definition tool_char (c : ascii) : bool :=
  let n := nat_of_ascii c in
  (((97 <=? n) && (n <=? 122)) || ((65 <=? n) && (n <=? 90))
   || ((48 <=? n) && (n <=? 57)) || (n =? 95) || (n =? 45))%nat.

(** [$] without re.MULTILINE: matches at the end of the string and just
    before a newline that is the last character of the string. *)
Definition at_dollar (rest : string) : bool :=
  match rest with
  | EmptyString => true
  | String c EmptyString => Ascii.eqb c newline
  | _ => false
  end.

(** [[a-zA-Z0-9_-]*$] from the current position: the class is consumed
    greedily and the matcher backtracks to try [$] after fewer
    characters. *)
Fixpoint class_star_dollar (s : string) : bool :=
  match s with
  | EmptyString => at_dollar s
  | String c s' => (tool_char c && class_star_dollar s') || at_dollar s
  end.

(** [re.match(r'^[a-zA-Z0-9_-]+$', v)] is not None; [^] holds at the
    position where re.match starts. *)
Definition match_tool_name (v : string) : bool :=
  match v with
  | EmptyString => false
  | String c s' => tool_char c && class_star_dollar s'
  end.

End Re.

(* --------------------------------------------------------------------- *)
(*  shlex.split(s): shlex(s, posix=True) with whitespace_split = True    *)
(*  and no commenters, read token by token until end of input            *)
(* --------------------------------------------------------------------- *)

Module Shlex.

Definition squote : ascii := "039"%char.
Definition dquote : ascii := "034"%char.
Definition backslash : ascii := "092"%char.

(** [self.state]: ' ' (between tokens), 'a' (in a word), a quote
    character, or the escape character. *)
Inductive state :=
| White
| Word
| Quote (q : ascii)
| Escape (e : ascii).

(** ' \t\r\n' *)
Definition whitespace (c : ascii) : bool :=
  let n := nat_of_ascii c in ((n =? 32) || (n =? 9) || (n =? 13) || (n =? 10))%nat.

Definition quotes (c : ascii) : bool := Ascii.eqb c squote || Ascii.eqb c dquote.
Definition escape (c : ascii) : bool := Ascii.eqb c backslash.
Definition escapedquotes (c : ascii) : bool := Ascii.eqb c dquote.

Definition snoc (tok : string) (c : ascii) : string := tok ++ String c EmptyString.

(** What read_token returns when it breaks out of its loop: None (here:
    no token) in POSIX mode for an empty token that was not quoted. *)
Definition emit (quoted : bool) (tok : string) (later : list string) : list string :=
  if negb quoted && String.eqb tok "" then later else tok :: later.

(** The loop of read_token, run over the whole input.  [st] is
    self.state, [esc] is escapedstate, [tok] is self.token; each break
    that yields a token restarts the loop with quoted = False,
    escapedstate = ' ' and an empty token.  [None] stands for the
    ValueError of an unclosed quotation or a dangling escape. *)
Fixpoint read_tokens (input : string) (st esc : state) (quoted : bool)
         (tok : string) : option (list string) :=
  match input with
  | EmptyString =>
      match st with
      | White | Word => Some (emit quoted tok [])
      | Quote _ => None
      | Escape _ => None
      end
  | String nextchar rest =>
      match st with
      | White =>
          if whitespace nextchar then
            if PyStr.truthy tok || quoted
            then option_map (emit quoted tok) (read_tokens rest White White false "")
            else read_tokens rest White esc quoted tok
          else if escape nextchar then read_tokens rest (Escape nextchar) Word quoted tok
          else if quotes nextchar then read_tokens rest (Quote nextchar) esc quoted tok
          else (* a word character, or any other one as whitespace_split is set *)
            read_tokens rest Word esc quoted (String nextchar EmptyString)
      | Quote q =>
          if Ascii.eqb nextchar q then read_tokens rest Word esc true tok
          else if escape nextchar && escapedquotes q
          then read_tokens rest (Escape nextchar) (Quote q) true tok
          else read_tokens rest (Quote q) esc true (snoc tok nextchar)
      | Escape e =>
          let tok :=
            match esc with
            | Quote q =>
                if negb (Ascii.eqb nextchar e) && negb (Ascii.eqb nextchar q)
                then snoc tok e else tok
            | _ => tok
            end in
          read_tokens rest esc esc quoted (snoc tok nextchar)
      | Word =>
          if whitespace nextchar then
            if PyStr.truthy tok || quoted
            then option_map (emit quoted tok) (read_tokens rest White White false "")
            else read_tokens rest White esc quoted tok
          else if quotes nextchar then read_tokens rest (Quote nextchar) esc quoted tok
          else if escape nextchar then read_tokens rest (Escape nextchar) Word quoted tok
          else read_tokens rest Word esc quoted (snoc tok nextchar)
      end
  end.

Definition split (s : string) : option (list string) :=
  read_tokens s White White false "".

End Shlex.

(* --------------------------------------------------------------------- *)
(*  Configuration                                                         *)
(* --------------------------------------------------------------------- *)

(** The fields of [Config] that the gatekeeper reads. *)
Record Config := {
  max_timeout : Z;
  default_timeout : Z;
  max_output_size : Z;
  allowed_tools : list string;
  working_directory : string
}.

(** The dataclass defaults, with no override from the process environment. *)
Definition default_config : Config := {|
  max_timeout := 300;
  default_timeout := 60;
  max_output_size := 1024 * 1024;
  allowed_tools :=
    [ "nmap"; "sqlmap"; "hydra"; "john"; "nikto";
      "aircrack-ng"; "metasploit-framework"; "gobuster";
      "dirb"; "wfuzz"; "cewl"; "hashcat"; "crunch";
      "medusa"; "ncrack"; "enum4linux"; "smbclient";
      "rpcclient"; "ldapsearch"; "dig"; "nslookup";
      "whois"; "traceroute"; "ping"; "netstat"; "ss" ];
  working_directory := "/tmp/kali-mcp"
|}.

(* --------------------------------------------------------------------- *)
(*  Exceptions and results                                                *)
(* --------------------------------------------------------------------- *)

Inductive value_error :=
| TimeoutExceedsMaximum (timeout maximum : Z)
| InvalidArguments
| InvalidToolName
| DangerousCharacters.

Inductive exn :=
| SecurityError (tool : string)
| ValueError (why : value_error)
| TimeoutError (tool : string) (timeout : Z)
| TimeoutExpired
| CalledProcessError
| FileNotFoundError
| OSError.

Inductive result (A : Type) :=
| Ok (a : A)
| Raise (e : exn).
Arguments Ok {A} a.
Arguments Raise {A} e.

(* --------------------------------------------------------------------- *)
(*  The host: search path, permissions, file system, child processes     *)
(* --------------------------------------------------------------------- *)

(** What subprocess.run hands back for a child that exits. *)
Record CompletedProcess := {
  stdout : string;
  stderr : string;
  returncode : Z
}.

(** The arguments of one subprocess.run call.  [shell] is the parameter of
    that name; no call of the server passes it, so it keeps its default
    False and [argv] is the literal argument vector of the child.  [cwd]
    and [env] are None when the child inherits them. *)
Record Popen := {
  argv : list string;
  cwd : option string;
  env : option (gmap string string);
  timeout : Z;
  shell : bool
}.

(** How a subprocess.run call ends: the child exits, or the call raises
    one of the errors that the server tells apart.  A call that raises a
    ValueError (an argument with a NUL character, output that cannot be
    decoded) is not among these outcomes. *)
Inductive outcome :=
| Exited (p : CompletedProcess)
| TimedOut                       (* subprocess.TimeoutExpired *)
| NotFound                       (* FileNotFoundError *)
| Failed.                        (* any other OSError *)

Record Host := {
  which : string -> option string;     (* shutil.which *)
  access_x : string -> bool;           (* os.access(path, os.X_OK) *)
  environ : gmap string string;        (* os.environ *)
  can_mkdir : string -> bool;          (* whether os.makedirs succeeds *)
  child : Popen -> outcome             (* what the launched program does *)
}.

(** One subprocess.run call, together with the directories that existed
    when it was made. *)
Record Launch := {
  call : Popen;
  dirs_at_launch : gset string
}.

(** The part of the host that the server changes: the directories that
    exist, and the subprocess.run calls made so far, oldest first.  The
    world has no regular files: a path exists when it is one of these
    directories. *)
Record World := {
  dirs : gset string;
  spawned : list Launch
}.

(** Computations that read and change the world and may raise. *)
Definition M (A : Type) : Type := World -> result A * World.

Definition ret {A} (a : A) : M A := fun w => (Ok a, w).
Definition raise {A} (e : exn) : M A := fun w => (Raise e, w).
Definition bind {A B} (m : M A) (k : A -> M B) : M B :=
  fun w => match m w with
           | (Ok a, w') => k a w'
           | (Raise e, w') => (Raise e, w')
           end.

Notation "x <- m ;; k" := (bind m (fun x => k))
  (at level 100, m at next level, right associativity).
Notation "m ;;; k" := (bind m (fun _ => k))
  (at level 100, right associativity).

(** [os.path.exists(path)], in a world that has directories only *)
Definition os_path_exists (path : string) : M bool :=
  fun w => (Ok (bool_decide (path ∈ dirs w)), w).

(** [os.makedirs(path, exist_ok=True)]: nothing to do for a directory that
    exists; otherwise the host decides whether the call succeeds, and an
    OSError is raised when it does not.  Only [path] itself is recorded
    as made: the missing ancestors, which os.makedirs makes on the way
    and leaves behind when it fails further down, are not, and neither
    is the ValueError that it raises for a path with a NUL character. *)
Definition os_makedirs (h : Host) (path : string) : M unit :=
  fun w =>
    if bool_decide (path ∈ dirs w) then (Ok tt, w)
    else if can_mkdir h path
         then (Ok tt, {| dirs := {[ path ]} ∪ dirs w; spawned := spawned w |})
         else (Raise OSError, w).

(** [subprocess.run(argv, cwd=..., env=..., capture_output=True,
    text=True, timeout=...)] *)
Definition subprocess_run (h : Host) (c : Popen) : M CompletedProcess :=
  fun w =>
    let w' := {| dirs := dirs w;
                 spawned := (spawned w ++ [ {| call := c; dirs_at_launch := dirs w |} ])%list |} in
    match child h c with
    | Exited p => (Ok p, w')
    | TimedOut => (Raise TimeoutExpired, w')
    | NotFound => (Raise FileNotFoundError, w')
    | Failed => (Raise OSError, w')
    end.

(** A Python loop that appends one result per element. *)
Fixpoint for_each {A B} (f : A -> M B) (l : list A) : M (list B) :=
  match l with
  | [] => ret []
  | a :: l' => b <- f a ;; bs <- for_each f l' ;; ret (b :: bs)
  end.

(* --------------------------------------------------------------------- *)
(*  Request and response models                                           *)
(* --------------------------------------------------------------------- *)

(** The characters that validate_args refuses. *)
Definition dangerous_chars : list ascii :=
  [ ";"%char; "&"%char; "|"%char; "`"%char; "$"%char;
    "("%char; ")"%char; "<"%char; ">"%char ].

(** [ToolExecutionRequest.validate_tool] *)
Definition validate_tool (v : string) : result string :=
  if negb (Re.match_tool_name v) then Raise (ValueError InvalidToolName)
  else Ok v.

(** [ToolExecutionRequest.validate_args] *)
Definition validate_args (v : option string) : result (option string) :=
  match v with
  | Some s =>
      (* Basic validation to prevent command injection *)
      if existsb (fun char => PyStr.has_char char s) dangerous_chars
      then Raise (ValueError DangerousCharacters)
      else Ok v
  | None => Ok v
  end.

Record ToolExecutionRequest := {
  req_tool : string;
  req_args : option string;
  req_timeout : option Z;
  req_working_dir : option string
}.

(** The bounds of the timeout field: ge=1, le=config.max_timeout. *)
Definition timeout_field_ok (cfg : Config) (v : option Z) : bool :=
  match v with
  | Some t => (1 <=? t)%Z && (t <=? max_timeout cfg)%Z
  | None => true
  end.

Inductive field_error :=
| BadTool
| BadArgs
| BadTimeout.

(** Construction of a ToolExecutionRequest: every field is checked, and
    the request exists only when no check fails; otherwise pydantic raises
    one ValidationError that lists the fields at fault. *)
Definition request_errors (cfg : Config) (tool : string) (args : option string)
           (timeout : option Z) : list field_error :=
  (match validate_tool tool with Ok _ => [] | Raise _ => [BadTool] end)
  ++ (match validate_args args with Ok _ => [] | Raise _ => [BadArgs] end)
  ++ (if timeout_field_ok cfg timeout then [] else [BadTimeout]).

Definition new_request (cfg : Config) (tool : string) (args : option string)
           (timeout : option Z) (working_dir : option string)
  : ToolExecutionRequest + list field_error :=
  match request_errors cfg tool args timeout with
  | [] => inl {| req_tool := tool; req_args := args;
                 req_timeout := timeout; req_working_dir := working_dir |}
  | errs => inr errs
  end.

(** [ToolExecutionResponse]; execution_time, a wall-clock float, is left out. *)
Record ToolExecutionResponse := {
  success : bool;
  output : string;
  error : option string;
  resp_tool : string;
  resp_args : option string;
  return_code : Z
}.

Record ToolInfo := {
  name : string;
  path : string;
  version : option string;
  description : option string;
  available : bool
}.

Record ToolListResponse := {
  tools : list ToolInfo;
  total : nat
}.

(* --------------------------------------------------------------------- *)
(*  Security utilities                                                    *)
(* --------------------------------------------------------------------- *)

Definition str_in (x : string) (l : list string) : bool := existsb (String.eqb x) l.

(** [validate_tool_access(tool)] *)
Definition validate_tool_access (h : Host) (cfg : Config) (tool : string) : bool :=
  if negb (str_in tool (allowed_tools cfg)) then false
  else
    (* Check if tool exists and is executable *)
    match which h tool with
    | None => false
    | Some tool_path =>
        if negb (PyStr.truthy tool_path) then false
        (* Additional security checks *)
        else if negb (access_x h tool_path) then false
        else true
    end.

Definition restricted_vars : list string :=
  [ "PATH"; "HOME"; "USER"; "SHELL"; "PWD"; "LANG"; "LC_ALL" ].

(** [create_sandbox_environment(working_dir)] *)
Definition create_sandbox_environment (h : Host) (working_dir : string)
  : gmap string string :=
  let env := environ h in
  (* Restrict environment variables *)
  let sandbox_env :=
    foldl (fun (acc : gmap string string) var =>
             match env !! var with
             | Some v => <[ var := v ]> acc
             | None => acc
             end) ∅ restricted_vars in
  (* Set working directory *)
  let sandbox_env := <[ "PWD" := working_dir ]> sandbox_env in
  (* Disable dangerous features *)
  let sandbox_env := <[ "LD_PRELOAD" := "" ]> sandbox_env in
  let sandbox_env := <[ "LD_LIBRARY_PATH" := "" ]> sandbox_env in
  sandbox_env.

(* --------------------------------------------------------------------- *)
(*  Tool management                                                       *)
(* --------------------------------------------------------------------- *)

(** [result.stdout.strip().split('\n')[0]] *)
Definition first_line (out : string) : string :=
  match PyStr.split Re.newline (PyStr.strip out) with
  | l :: _ => l
  | [] => ""
  end.

(** [ToolManager.get_tool_info(tool_name)] *)
Definition get_tool_info (h : Host) (cfg : Config) (tool_name : string)
  : M (option ToolInfo) :=
  if negb (validate_tool_access h cfg tool_name) then ret None
  else
    match which h tool_name with
    | None => ret None
    | Some tool_path =>
        if negb (PyStr.truthy tool_path) then ret None
        else
          (* Try to get version info *)
          fun w =>
            let probe := {| argv := [tool_name; "--version"]; cwd := None;
                            env := None; timeout := 5; shell := false |} in
            let info v := {| name := tool_name; path := tool_path; version := v;
                             description := None; available := true |} in
            match subprocess_run h probe w with
            | (Ok r, w') =>
                if (returncode r =? 0)%Z
                then (Ok (Some (info (Some (first_line (stdout r))))), w')
                else (Ok (Some (info None)), w')
            | (Raise TimeoutExpired, w')
            | (Raise CalledProcessError, w')
            | (Raise FileNotFoundError, w') => (Ok (Some (info None)), w')
            | (Raise e, w') => (Raise e, w')
            end
    end.

(** [ToolManager.list_tools()] *)
Definition list_tools (h : Host) (cfg : Config) : M (list ToolInfo) :=
  for_each
    (fun tool_name =>
       tool_info <- get_tool_info h cfg tool_name ;;
       match tool_info with
       | Some info => ret info
       | None => ret {| name := tool_name; path := ""; version := None;
                        description := None; available := false |}
       end)
    (allowed_tools cfg).

(** [list_tools_http()] *)
Definition list_tools_http (h : Host) (cfg : Config) : M ToolListResponse :=
  tools <- list_tools h cfg ;;
  ret {| tools := tools; total := length tools |}.

(* --------------------------------------------------------------------- *)
(*  run_tool                                                              *)
(* --------------------------------------------------------------------- *)

Definition truncation_marker : string :=
  String Re.newline "... (output truncated)".

(** The output check of run_tool. *)
Definition cap_output (cfg : Config) (out : string) : string :=
  if (PyStr.len out >? max_output_size cfg)%Z
  then PyStr.slice_to (max_output_size cfg) out ++ truncation_marker
  else out.

Definition opt_truthy (s : option string) : bool :=
  match s with Some s => PyStr.truthy s | None => false end.

(** [run_tool(tool, args, timeout, working_dir)]; logging and the
    measurement of the execution time are left out. *)
Definition run_tool (h : Host) (cfg : Config) (tool : string)
           (args : option string) (timeout : option Z)
           (working_dir : option string) : M string :=
  if negb (validate_tool_access h cfg tool) then raise (SecurityError tool)
  else
    timeout <- match timeout with
               | None => ret (default_timeout cfg)
               | Some t =>
                   if (t >? max_timeout cfg)%Z
                   then raise (ValueError (TimeoutExceedsMaximum t (max_timeout cfg)))
                   else ret t
               end ;;
    (* Prepare working directory *)
    working_dir <- match working_dir with
                   | Some d =>
                       if PyStr.truthy d then
                         let d := sanitize_path d in
                         present <- os_path_exists d ;;
                         (if negb present then os_makedirs h d else ret tt) ;;;
                         ret d
                       else
                         let d := working_directory cfg in
                         os_makedirs h d ;;; ret d
                   | None =>
                       let d := working_directory cfg in
                       os_makedirs h d ;;; ret d
                   end ;;
    (* Build command *)
    cmd <- (if opt_truthy args then
              match Shlex.split (default "" args) with
              | Some tokens => ret ([tool] ++ tokens)%list
              | None => raise (ValueError InvalidArguments)
              end
            else ret [tool]) ;;
    (* Create sandboxed environment *)
    let env := create_sandbox_environment h working_dir in
    fun w =>
      match subprocess_run h {| argv := cmd; cwd := Some working_dir;
                                env := Some env; timeout := timeout;
                                shell := false |} w with
      | (Ok proc, w') =>
          (* Check output size *)
          (Ok (cap_output cfg (stdout proc ++ stderr proc)), w')
      | (Raise TimeoutExpired, w') => (Raise (TimeoutError tool timeout), w')
      | (Raise e, w') => (Raise e, w')
      end.

(* --------------------------------------------------------------------- *)
(*  The HTTP route POST /run                                              *)
(* --------------------------------------------------------------------- *)

Inductive http_reply :=
| Reply (body : ToolExecutionResponse)        (* 200 *)
| HTTPException (status_code : Z).

(** [run_tool_http(request)] *)
Definition run_tool_http (h : Host) (cfg : Config) (request : ToolExecutionRequest)
  : World -> http_reply * World :=
  fun w =>
    match run_tool h cfg (req_tool request) (req_args request)
                   (req_timeout request) (req_working_dir request) w with
    | (Ok out, w') =>
        (Reply {| success := true; output := out; error := None;
                  resp_tool := req_tool request; resp_args := req_args request;
                  return_code := 0 |}, w')
    | (Raise (SecurityError _), w') => (HTTPException 403, w')
    | (Raise (ValueError _), w') => (HTTPException 400, w')
    | (Raise (TimeoutError _ _), w') => (HTTPException 408, w')
    | (Raise _, w') => (HTTPException 500, w')
    end.

(** POST /run as the framework serves it: the body is first turned into a
    ToolExecutionRequest, and a body that fails validation is answered
    with 422 without the handler being called. *)
Definition post_run (h : Host) (cfg : Config) (tool : string) (args : option string)
           (timeout : option Z) (working_dir : option string)
  : World -> http_reply * World :=
  fun w =>
    match new_request cfg tool args timeout working_dir with
    | inl request => run_tool_http h cfg request w
    | inr _ => (HTTPException 422, w)
    end.

(* --------------------------------------------------------------------- *)
(*  A concrete host, for running the definitions                         *)
(* --------------------------------------------------------------------- *)

Module Demo.

Definition nmap_banner : CompletedProcess :=
  {| stdout := "Nmap version 7.94"; stderr := ""; returncode := 0 |}.

Definition nmap_bad_option : CompletedProcess :=
  {| stdout := ""; stderr := "nmap: unrecognized option"; returncode := 255 |}.

(** A Kali machine on which nmap and rm are installed; nmap prints its
    banner for a version query and fails on anything else. *)
Definition host : Host := {|
  which := fun t =>
    if String.eqb t "nmap" then Some "/usr/bin/nmap"
    else if String.eqb t "rm" then Some "/usr/bin/rm"
    else None;
  access_x := fun _ => true;
  environ :=
    <[ "PATH" := "/usr/bin" ]> (<[ "HOME" := "/root" ]>
    (<[ "API_TOKEN" := "secret" ]> (<[ "LD_PRELOAD" := "/tmp/evil.so" ]> ∅)));
  can_mkdir := fun _ => true;
  child := fun c =>
    match argv c with
    | [ _; a ] =>
        if String.eqb a "--version" || String.eqb a "-V"
        then Exited nmap_banner else Exited nmap_bad_option
    | _ => Exited nmap_bad_option
    end
|}.

Definition boot : World := {| dirs := ∅; spawned := [] |}.

End Demo.

(* --------------------------------------------------------------------- *)
(*  Vocabulary for the statements about run_tool                         *)
(* --------------------------------------------------------------------- *)

(** The timeout that run_tool settles on, when it accepts the request's. *)
Definition resolve_timeout (cfg : Config) (timeout : option Z) : option Z :=
  match timeout with
  | None => Some (default_timeout cfg)
  | Some t => if (t >? max_timeout cfg)%Z then None else Some t
  end.

(** The directory that run_tool runs the tool in. *)
Definition chosen_dir (cfg : Config) (working_dir : option string) : string :=
  match working_dir with
  | Some d => if PyStr.truthy d then sanitize_path d else working_directory cfg
  | None => working_directory cfg
  end.

(** The argument tokens that run_tool appends to the tool name. *)
Definition tokens_of (args : option string) : option (list string) :=
  if opt_truthy args then Shlex.split (default "" args) else Some [].




(** The directory is there already, or the host lets the server make it. *)
Definition dir_ready (h : Host) (w : World) (d : string) : Prop :=
  d ∈ dirs w \/ can_mkdir h d = true.

(** The world once [d] has been made sure of. *)
Definition with_dir (w : World) (d : string) : World :=
  if bool_decide (d ∈ dirs w) then w
  else {| dirs := {[ d ]} ∪ dirs w; spawned := spawned w |}.

(** The one subprocess.run call of run_tool. *)
Definition tool_call (h : Host) (tool : string) (tokens : list string)
           (t : Z) (d : string) : Popen :=
  {| argv := tool :: tokens; cwd := Some d;
     env := Some (create_sandbox_environment h d); timeout := t; shell := false |}.

(** What run_tool makes of the way the child ended. *)
Definition tool_result (cfg : Config) (tool : string) (t : Z) (o : outcome)
  : result string :=
  match o with
  | Exited proc => Ok (cap_output cfg (stdout proc ++ stderr proc))
  | TimedOut => Raise (TimeoutError tool t)
  | NotFound => Raise FileNotFoundError
  | Failed => Raise OSError
  end.

(** The only subprocess.run call of get_tool_info. *)
Definition version_probe (tool_name : string) : Popen :=
  {| argv := [tool_name; "--version"]; cwd := None; env := None;
     timeout := 5; shell := false |}.

(** The path that makes a listed tool available: found on the search path
    and executable. *)
Definition resolve (h : Host) (tool_name : string) : option string :=
  match which h tool_name with
  | Some p => if PyStr.truthy p && access_x h p then Some p else None
  | None => None
  end.

(** [p] is [root] itself or lies below it. *)
Definition under (root p : string) : bool :=
  String.eqb p root || PyStr.startswith (root ++ "/") p.

(** The body of the loop of create_sandbox_environment that copies the
    retained variables from [env]. *)
Definition keep (env acc : gmap string string) (var : string) : gmap string string :=
  match env !! var with
  | Some v => <[ var := v ]> acc
  | None => acc
  end.


(** Every character of [s] is a letter, a digit, a hyphen or an
    underscore. *)
Fixpoint all_tool_chars (s : string) : bool :=
  match s with
  | EmptyString => true
  | String c s' => Re.tool_char c && all_tool_chars s'
  end.

(* --------------------------------------------------------------------- *)
(*  The rest of the server: configuration, MCP tools, the other routes   *)
(* --------------------------------------------------------------------- *)

(** [sorted(...)] on strings, which Python compares character by
    character by code point. *)
Fixpoint insert_sorted (x : string) (l : list string) : list string :=
  match l with
  | [] => [x]
  | y :: l' => if String.leb x y then x :: l else y :: insert_sorted x l'
  end.

Definition sorted (l : list string) : list string := foldr insert_sorted [] l.

(** [[t.strip() for t in extra.split(",") if t.strip()]] *)
Definition extra_tools_of (extra : string) : list string :=
  List.filter PyStr.truthy (map PyStr.strip (PyStr.split ","%char extra)).

(** The allow-list that [Config.__post_init__] leaves in the
    configuration: the given list, or the default one, and with a
    non-empty EXTRA_TOOLS the sorted set of that list extended by the
    extra tools.  The set is taken as the list without its repetitions;
    the order in which Python iterates a set is of no account, as the
    result is sorted. *)
Definition post_init_allowed_tools (given : option (list string))
           (environ : gmap string string) : list string :=
  let allowed_tools := default (allowed_tools default_config) given in
  match environ !! "EXTRA_TOOLS" with
  | Some extra =>
      if PyStr.truthy extra
      then sorted (remove_dups (allowed_tools ++ extra_tools_of extra))
      else allowed_tools
  | None => allowed_tools
  end.

(** The MCP tool [list_tools()] *)
Definition mcp_list_tools (h : Host) (cfg : Config) : M (list string) :=
  tools <- list_tools h cfg ;;
  ret (name <$> List.filter available tools).

(** How a call of the MCP tool get_tool_info ends, when the version
    probe lets it come that far: with the dictionary of the fields, with
    the ValueError for a tool that is not available, or with the
    TypeError that dataclasses.asdict raises for an object that is not
    an instance of a dataclass. *)
Inductive described :=
| Described (info : ToolInfo)
| NotAvailable
| NotADataclass.

(** The MCP tool [get_tool_info(tool)].  ToolInfo is a pydantic model: it
    is always true as a condition, and it is no dataclass, so that
    asdict refuses it. *)
Definition mcp_get_tool_info (h : Host) (cfg : Config) (tool : string) : M described :=
  tool_info <- get_tool_info h cfg tool ;;
  match tool_info with
  | Some info => ret NotADataclass
  | None => ret NotAvailable
  end.

(** [get_tool_info_http(tool_name)]: the status code and, for 200, the
    body.  An exception that get_tool_info lets through is answered by
    general_exception_handler with 500. *)
Definition get_tool_info_http (h : Host) (cfg : Config) (tool_name : string)
  : World -> (Z * option ToolInfo) * World :=
  fun w =>
    match get_tool_info h cfg tool_name w with
    | (Ok (Some info), w') => ((200%Z, Some info), w')
    | (Ok None, w') => ((404%Z, None), w')
    | (Raise _, w') => ((500%Z, None), w')
    end.

(** The body of GET /metrics without its uptime, a wall-clock float. *)
Record Metrics := {
  total_tools : nat;
  available_tools : nat;
  metrics_max_timeout : Z;
  metrics_default_timeout : Z;
  metrics_max_output_size : Z
}.

(** [get_metrics()] *)
Definition get_metrics (h : Host) (cfg : Config) : M Metrics :=
  tools <- list_tools h cfg ;;
  let available_tools := length (List.filter available tools) in
  ret {| total_tools := length tools;
         available_tools := available_tools;
         metrics_max_timeout := max_timeout cfg;
         metrics_default_timeout := default_timeout cfg;
         metrics_max_output_size := max_output_size cfg |}.

(** The startup half of [lifespan(app)]: the working directory is
    created; the start of the MCP thread is left out. *)
Definition lifespan_startup (h : Host) (cfg : Config) : M unit :=
  os_makedirs h (working_directory cfg).

(** What run_tool comes to, step by step: the access check, the timeout,
    the working directory, the arguments, the launch. *)
Definition run_tool_steps (h : Host) (cfg : Config) (tool : string)
           (args : option string) (timeout : option Z)
           (working_dir : option string) (w : World) : result string * World :=
  if negb (validate_tool_access h cfg tool) then (Raise (SecurityError tool), w)
  else
    match resolve_timeout cfg timeout with
    | None =>
        (Raise (ValueError (TimeoutExceedsMaximum (default 0%Z timeout) (max_timeout cfg))), w)
    | Some t =>
        let d := chosen_dir cfg working_dir in
        if bool_decide (d ∈ dirs w) || can_mkdir h d then
          match tokens_of args with
          | None => (Raise (ValueError InvalidArguments), with_dir w d)
          | Some tokens =>
              let c := tool_call h tool tokens t d in
              (tool_result cfg tool t (child h c),
               {| dirs := dirs (with_dir w d);
                  spawned := spawned w ++
                             [ {| call := c; dirs_at_launch := dirs (with_dir w d) |} ] |})
          end
        else (Raise OSError, w)
    end.

(** A component that normpath keeps: not empty and free of slashes. *)
Definition kept_component (comp : string) : Prop :=
  comp <> "" /\ PyStr.has_char "/" comp = false.

(** The state of shlex's tokenizer holds no occurrence of [c]. *)
Definition state_clean (c : ascii) (st : Shlex.state) : Prop :=
  match st with
  | Shlex.Escape e => Ascii.eqb c e = false
  | _ => True
  end.

(** Every character of [s] is one of shlex's whitespace characters. *)
Fixpoint all_whitespace (s : string) : bool :=
  match s with
  | EmptyString => true
  | String c s' => Shlex.whitespace c && all_whitespace s'
  end.

(** The version that get_tool_info reads off the way its probe ended. *)
Definition probe_version (o : outcome) : result (option string) :=
  match o with
  | Exited r =>
      Ok (if (returncode r =? 0)%Z then Some (first_line (stdout r)) else None)
  | TimedOut | NotFound => Ok None
  | Failed => Raise OSError
  end.

(** The world after the version probe of [tool_name]. *)
Definition after_probe (w : World) (tool_name : string) : World :=
  {| dirs := dirs w;
     spawned := spawned w ++
                [ {| call := version_probe tool_name; dirs_at_launch := dirs w |} ] |}.

(** The entry of list_tools for [tool_name], the probe having ended in a
    way that get_tool_info handles. *)
Definition entry_of (h : Host) (tool_name : string) : ToolInfo :=
  match resolve h tool_name with
  | Some p =>
      {| name := tool_name; path := p;
         version := match probe_version (child h (version_probe tool_name)) with
                    | Ok v => v
                    | Raise _ => None
                    end;
         description := None; available := true |}
  | None =>
      {| name := tool_name; path := ""; version := None;
         description := None; available := false |}
  end.

(** Whether [tool_name] resolves to an executable. *)
Definition resolves (h : Host) (tool_name : string) : bool :=
  match resolve h tool_name with Some _ => true | None => false end.

(** Variations of the demonstration host. *)
Module Hosts.

(** No directory can be made. *)
Definition locked : Host := {|
  which := which Demo.host; access_x := access_x Demo.host;
  environ := environ Demo.host; can_mkdir := fun _ => false;
  child := child Demo.host
|}.

(** Every child runs into its timeout. *)
Definition slow : Host := {|
  which := which Demo.host; access_x := access_x Demo.host;
  environ := environ Demo.host; can_mkdir := can_mkdir Demo.host;
  child := fun _ => TimedOut
|}.

(** Every launch fails with an OS error, a permission error say. *)
Definition broken : Host := {|
  which := which Demo.host; access_x := access_x Demo.host;
  environ := environ Demo.host; can_mkdir := can_mkdir Demo.host;
  child := fun _ => Failed
|}.

(** nmap prints a banner of several lines, with blanks in front. *)
Definition verbose : Host := {|
  which := which Demo.host; access_x := access_x Demo.host;
  environ := environ Demo.host; can_mkdir := can_mkdir Demo.host;
  child := fun _ =>
    Exited {| stdout := "  Nmap version 7.94" ++ String Re.newline
                        ("Platform: x86_64-pc-linux-gnu" ++ String Re.newline "");
              stderr := ""; returncode := 0 |}
|}.



End Hosts.

(** The timeout that a subprocess.run call was made with. *)
Definition launch_timeout (l : Launch) : Z := timeout (call l).

(** The world after the version probes of the names of [names] that
    resolve, in the order of the list. *)
Definition probed (h : Host) (w : World) (names : list string) : World :=
  {| dirs := dirs w;
     spawned := spawned w ++
                map (fun n => {| call := version_probe n; dirs_at_launch := dirs w |})
                    (List.filter (resolves h) names) |}.

(* ===================================================================== *)
(*  Lemmas                                                                *)
(* ===================================================================== *)

Section RunTool.

Variable h : Host.
Variable cfg : Config.

Lemma makedirs_ready (w : World) (d : string) :
  dir_ready h w d ->
  os_makedirs h d w = (Ok tt, with_dir w d).
Proof.
  intros Hd. unfold os_makedirs, with_dir.
  destruct (bool_decide (d ∈ dirs w)) eqn:E; [reflexivity|].
  destruct Hd as [Hin|Hmk].
  - apply bool_decide_eq_false in E. contradiction.
  - now rewrite Hmk.
Qed.

(** Preparing the working directory, as run_tool does it. *)
Lemma prepare_ready (w : World) (d : string) :
  dir_ready h w d ->
  (present <- os_path_exists d ;;
   (if negb present then os_makedirs h d else ret tt) ;;; ret d) w
  = (Ok d, with_dir w d).
Proof.
  intros Hd. unfold bind at 1. unfold os_path_exists.
  destruct (bool_decide (d ∈ dirs w)) eqn:E; cbn [negb].
  - unfold bind, ret, with_dir. now rewrite E.
  - unfold bind. now rewrite (makedirs_ready _ _ Hd).
Qed.

(** A request that is refused by the access check changes nothing. *)
Lemma run_tool_denied tool args timeout working_dir w :
  validate_tool_access h cfg tool = false ->
  run_tool h cfg tool args timeout working_dir w = (Raise (SecurityError tool), w).
Proof. intros Hv. unfold run_tool. now rewrite Hv. Qed.

(** A timeout above the ceiling is refused before anything is done. *)
Lemma run_tool_timeout_refused tool args t working_dir w :
  validate_tool_access h cfg tool = true ->
  (max_timeout cfg < t)%Z ->
  run_tool h cfg tool args (Some t) working_dir w
  = (Raise (ValueError (TimeoutExceedsMaximum t (max_timeout cfg))), w).
Proof.
  intros Hv Ht. unfold run_tool. rewrite Hv. cbn [negb].
  apply Z.gtb_lt in Ht. unfold bind at 1. now rewrite Ht.
Qed.

(** Every step before the launch goes through: run_tool makes exactly
    one subprocess.run call and turns its outcome into its own. *)
Lemma run_tool_launch tool args timeout working_dir w t tokens :
  validate_tool_access h cfg tool = true ->
  resolve_timeout cfg timeout = Some t ->
  tokens_of args = Some tokens ->
  dir_ready h w (chosen_dir cfg working_dir) ->
  let d := chosen_dir cfg working_dir in
  let c := tool_call h tool tokens t d in
  run_tool h cfg tool args timeout working_dir w
  = (tool_result cfg tool t (child h c),
     {| dirs := dirs (with_dir w d);
        spawned := spawned w ++
                   [ {| call := c; dirs_at_launch := dirs (with_dir w d) |} ] |}).
Proof.
  intros Hv Ht Htok Hd d c. unfold run_tool. rewrite Hv. cbn [negb].
  assert (Hspawn : spawned (with_dir w d) = spawned w).
  { unfold with_dir. now destruct (bool_decide _). }
  (* timeout *)
  unfold bind at 1.
  assert (Ht' : match timeout with
                | Some t0 =>
                    if (t0 >? max_timeout cfg)%Z
                    then raise (ValueError (TimeoutExceedsMaximum t0 (max_timeout cfg)))
                    else ret t0
                | None => ret (default_timeout cfg)
                end w = (Ok t, w)).
  { unfold resolve_timeout in Ht. destruct timeout as [t0|].
    - destruct (t0 >? max_timeout cfg)%Z; [discriminate|]. now inversion Ht.
    - now inversion Ht. }
  rewrite Ht'. clear Ht'.
  (* working directory *)
  unfold bind at 1.
  assert (Hwd : match working_dir with
                | Some d0 =>
                    if PyStr.truthy d0
                    then
                      present <- os_path_exists (sanitize_path d0) ;;
                      (if negb present then os_makedirs h (sanitize_path d0) else ret tt) ;;;
                      ret (sanitize_path d0)
                    else os_makedirs h (working_directory cfg) ;;; ret (working_directory cfg)
                | None => os_makedirs h (working_directory cfg) ;;; ret (working_directory cfg)
                end w = (Ok d, with_dir w d)).
  { subst d. unfold chosen_dir in *. destruct working_dir as [d0|].
    - destruct (PyStr.truthy d0).
      + now apply prepare_ready.
      + unfold bind. now rewrite (makedirs_ready _ _ Hd).
    - unfold bind. now rewrite (makedirs_ready _ _ Hd). }
  rewrite Hwd. clear Hwd.
  (* command *)
  unfold bind at 1. unfold tokens_of in Htok.
  destruct (opt_truthy args).
  - rewrite Htok. unfold ret at 1. unfold subprocess_run. rewrite Hspawn.
    fold d. change (([tool] ++ tokens)%list) with (tool :: tokens).
    fold (tool_call h tool tokens t d). fold c.
    now destruct (child h c).
  - inversion Htok; subst tokens. unfold ret at 1. unfold subprocess_run.
    rewrite Hspawn. fold d. fold (tool_call h tool [] t d). fold c.
    now destruct (child h c).
Qed.

End RunTool.

Section Sandbox.

Variable env : gmap string string.

Lemma keep_lookup_eq (acc : gmap string string) (var : string) :
  keep env acc var !! var = match env !! var with Some v => Some v | None => acc !! var end.
Proof.
  unfold keep. destruct (env !! var) eqn:E; [apply lookup_insert_eq | reflexivity].
Qed.

Lemma keep_lookup_ne (acc : gmap string string) (var k : string) :
  var <> k -> keep env acc var !! k = acc !! k.
Proof.
  intros Hne. unfold keep. destruct (env !! var); [now apply lookup_insert_ne | reflexivity].
Qed.

Lemma foldl_keep_outside (vars : list string) (acc : gmap string string) (k : string) :
  k ∉ vars -> foldl (keep env) acc vars !! k = acc !! k.
Proof.
  revert acc. induction vars as [|v vars IH]; intros acc Hk; [reflexivity|].
  cbn [foldl]. rewrite IH.
  - apply keep_lookup_ne. intros ->. apply Hk. left.
  - intros Hin. apply Hk. now right.
Qed.

Lemma foldl_keep_inside (vars : list string) (acc : gmap string string) (k : string) :
  k ∈ vars ->
  foldl (keep env) acc vars !! k = match env !! k with Some v => Some v | None => acc !! k end.
Proof.
  revert acc. induction vars as [|v vars IH]; intros acc Hk.
  - now apply elem_of_nil in Hk.
  - cbn [foldl]. destruct (decide (k ∈ vars)) as [Hin|Hout].
    + rewrite (IH _ Hin). destruct (env !! k) eqn:E; [reflexivity|].
      destruct (decide (v = k)) as [->|Hne].
      * rewrite keep_lookup_eq. now rewrite E.
      * now apply keep_lookup_ne.
    + rewrite (foldl_keep_outside _ _ _ Hout).
      apply elem_of_cons in Hk as [->|Hin]; [apply keep_lookup_eq | contradiction].
Qed.

End Sandbox.

Section ListTools.

Variable h : Host.
Variable cfg : Config.

Lemma str_in_elem (x : string) (l : list string) : str_in x l = true <-> x ∈ l.
Proof.
  unfold str_in. rewrite existsb_exists. split.
  - intros (y & Hy & He). apply String.eqb_eq in He. subst y. now apply list_elem_of_In.
  - intros Hx. exists x. split; [now apply list_elem_of_In | apply String.eqb_refl].
Qed.

Lemma access_is_resolve (tool_name : string) :
  tool_name ∈ allowed_tools cfg ->
  validate_tool_access h cfg tool_name
  = match resolve h tool_name with Some _ => true | None => false end.
Proof.
  intros Hin. unfold validate_tool_access, resolve.
  apply str_in_elem in Hin. rewrite Hin. cbn [negb].
  destruct (which h tool_name) as [p|]; [|reflexivity].
  destruct (PyStr.truthy p); [|reflexivity]. now destruct (access_x h p).
Qed.



End ListTools.

(** Membership in a list that is written out. *)
Ltac in_list := apply list_elem_of_In; cbn; auto 12.

Section Strings.

Lemma take_length (n : nat) (s : string) :
  n <= String.length s -> String.length (PyStr.take n s) = n.
Proof.
  revert s. induction n as [|n IH]; intros s Hn; [reflexivity|].
  destruct s as [|c s]; cbn in *; [lia|]. rewrite IH; lia.
Qed.

Lemma append_length (s1 s2 : string) :
  String.length (s1 ++ s2) = String.length s1 + String.length s2.
Proof. induction s1 as [|c s1 IH]; simpl; [reflexivity | now f_equal]. Qed.


(** The output check, case by case, for a cap that is not negative. *)
Lemma cap_output_cases (cfg : Config) (out : string) :
  (0 <= max_output_size cfg)%Z ->
  ((max_output_size cfg < PyStr.len out)%Z ->
     cap_output cfg out
     = PyStr.take (Z.to_nat (max_output_size cfg)) out ++ truncation_marker) /\
  ((PyStr.len out <= max_output_size cfg)%Z -> cap_output cfg out = out).
Proof.
  intros Hcap. unfold cap_output, PyStr.slice_to. split; intros Hlen.
  - apply Z.gtb_lt in Hlen. rewrite Hlen.
    apply Z.leb_le in Hcap. now rewrite Hcap.
  - destruct (PyStr.len out >? max_output_size cfg)%Z eqn:E; [|reflexivity].
    apply Z.gtb_lt in E. lia.
Qed.

End Strings.

Section PathSanitization.

(** Unfoldings of the scans for the two patterns of sanitize_path. *)
Lemma contains_dots_cons (c : ascii) (s : string) :
  PyStr.contains ".." (String c s)
  = (Ascii.eqb "." c && PyStr.startswith "." s) || PyStr.contains ".." s.
Proof. reflexivity. Qed.

Lemma startswith_dot_cons (c : ascii) (s : string) :
  PyStr.startswith "." (String c s) = Ascii.eqb "." c.
Proof. cbn. apply andb_true_r. Qed.

Lemma strip_dots_cons (c : ascii) (s : string) :
  PyStr.replace_from 0 ".." "" (String c s)
  = if Ascii.eqb "." c && PyStr.startswith "." s
    then PyStr.replace_from 1 ".." "" s
    else String c (PyStr.replace_from 0 ".." "" s).
Proof. reflexivity. Qed.

Lemma halve_slashes_cons (c : ascii) (s : string) :
  PyStr.replace_from 0 "//" "/" (String c s)
  = if Ascii.eqb "/" c && PyStr.startswith "/" s
    then String "/" (PyStr.replace_from 1 "//" "/" s)
    else String c (PyStr.replace_from 0 "//" "/" s).
Proof. reflexivity. Qed.

(** Neither scan puts a dot at the front of a string that had none. *)
Lemma strip_dots_head (s : string) :
  PyStr.startswith "." s = false ->
  PyStr.startswith "." (PyStr.replace_from 0 ".." "" s) = false.
Proof.
  destruct s as [|c s]; [reflexivity|].
  rewrite startswith_dot_cons. intros Hc.
  rewrite strip_dots_cons, Hc. cbn [andb]. now rewrite startswith_dot_cons.
Qed.

Lemma halve_slashes_head (s : string) :
  PyStr.startswith "." s = false ->
  PyStr.startswith "." (PyStr.replace_from 0 "//" "/" s) = false.
Proof.
  destruct s as [|c s]; [reflexivity|].
  rewrite startswith_dot_cons. intros Hc. rewrite halve_slashes_cons.
  destruct (Ascii.eqb "/" c && PyStr.startswith "/" s);
    now rewrite startswith_dot_cons.
Qed.

(** [replace("..", "")] leaves no two dots in a row. *)
Lemma strip_dots_clean (s : string) :
  PyStr.contains ".." (PyStr.replace_from 0 ".." "" s) = false /\
  PyStr.contains ".." (PyStr.replace_from 1 ".." "" s) = false.
Proof.
  induction s as [|c s [IH0 IH1]]; [now split|]. split; [|exact IH0].
  rewrite strip_dots_cons.
  destruct (Ascii.eqb "." c && PyStr.startswith "." s) eqn:E; [exact IH1|].
  rewrite contains_dots_cons, IH0, orb_false_r.
  destruct (Ascii.eqb "." c); [|reflexivity]. cbn [andb] in *.
  now apply strip_dots_head.
Qed.

(** [replace("//", "/")] brings no two dots together. *)
Lemma halve_slashes_clean (s : string) :
  PyStr.contains ".." s = false ->
  PyStr.contains ".." (PyStr.replace_from 0 "//" "/" s) = false /\
  PyStr.contains ".." (PyStr.replace_from 1 "//" "/" s) = false.
Proof.
  induction s as [|c s IH]; [now split|].
  rewrite contains_dots_cons. intros H. apply orb_false_elim in H as [Hc Hs].
  destruct (IH Hs) as [IH0 IH1]. split; [|exact IH0].
  rewrite halve_slashes_cons.
  destruct (Ascii.eqb "/" c && PyStr.startswith "/" s) eqn:E.
  - rewrite contains_dots_cons, IH1. reflexivity.
  - rewrite contains_dots_cons, IH0, orb_false_r.
    destruct (Ascii.eqb "." c); [|reflexivity]. cbn [andb] in *.
    now apply halve_slashes_head.
Qed.

(** A separator keeps the dots on its two sides apart. *)
Lemma contains_dots_slash (a b : string) :
  PyStr.contains ".." (a ++ String "/" b)
  = PyStr.contains ".." a || PyStr.contains ".." b.
Proof.
  induction a as [|c a IH]; [reflexivity|].
  change (String c a ++ String "/" b) with (String c (a ++ String "/" b)).
  rewrite !contains_dots_cons, IH, orb_assoc. f_equal. f_equal. f_equal.
  now destruct a.
Qed.

(** The fields of a string without two dots in a row have none either. *)
Lemma split_head_dot (s : string) :
  PyStr.startswith "." (hd "" (PyStr.split "/" s)) = PyStr.startswith "." s.
Proof.
  destruct s as [|c s]; [reflexivity|]. cbn [PyStr.split].
  destruct (Ascii.eqb c "/") eqn:E.
  - apply Ascii.eqb_eq in E. now subst c.
  - destruct (PyStr.split "/" s); cbn [hd]; now rewrite !startswith_dot_cons.
Qed.

Lemma split_clean (s : string) :
  PyStr.contains ".." s = false ->
  Forall (fun comp => PyStr.contains ".." comp = false) (PyStr.split "/" s).
Proof.
  induction s as [|c s IH]; [now repeat constructor|].
  rewrite contains_dots_cons. intros H. apply orb_false_elim in H as [Hc Hs].
  specialize (IH Hs). cbn [PyStr.split].
  destruct (Ascii.eqb c "/"); [now constructor|].
  pose proof (split_head_dot s) as Hhd.
  destruct (PyStr.split "/" s) as [|f fs].
  { constructor; [|constructor]. rewrite contains_dots_cons.
    change (PyStr.startswith "." "") with false.
    change (PyStr.contains ".." "") with false.
    now rewrite andb_false_r. }
  cbn [hd] in Hhd. inversion IH as [|? ? Hf Hfs]; subst.
  constructor; [|assumption].
  now rewrite contains_dots_cons, Hhd, Hc, Hf.
Qed.

(** normpath keeps components of its argument, and nothing else. *)
Lemma norm_comps_subset (P : string -> Prop) (initial : nat)
      (comps new_comps : list string) :
  Forall P comps -> Forall P new_comps ->
  Forall P (PosixPath.norm_comps initial comps new_comps).
Proof.
  revert new_comps. induction comps as [|comp rest IH]; intros acc Hc Ha; [exact Ha|].
  inversion Hc as [|? ? Hcomp Hrest]; subst. cbn [PosixPath.norm_comps].
  destruct (String.eqb comp "" || String.eqb comp "."); [now apply IH|].
  destruct (negb (String.eqb comp "..") || _ || _).
  - apply IH; [assumption | now constructor].
  - destruct acc as [|a acc']; [now apply IH|].
    inversion Ha; subst. now apply IH.
Qed.

Lemma join_clean (comps : list string) :
  Forall (fun comp => PyStr.contains ".." comp = false) comps ->
  PyStr.contains ".." (PyStr.join "/" comps) = false.
Proof.
  induction 1 as [|p ps Hp Hps IH]; [reflexivity|].
  destruct ps as [|q ps]; [exact Hp|].
  change (PyStr.join "/" (p :: q :: ps)) with (p ++ String "/" (PyStr.join "/" (q :: ps))).
  now rewrite contains_dots_slash, Hp, IH.
Qed.

Lemma repeat_sep_clean (n : nat) (s : string) :
  PyStr.contains ".." s = false ->
  PyStr.contains ".." (PosixPath.repeat_sep n ++ s) = false.
Proof.
  intros Hs. induction n as [|n IH]; [exact Hs|].
  change (PosixPath.repeat_sep (S n) ++ s)
    with (String "/" (PosixPath.repeat_sep n ++ s)).
  rewrite contains_dots_cons. now rewrite IH.
Qed.

Lemma normpath_clean (p : string) :
  PyStr.contains ".." p = false ->
  PyStr.contains ".." (PosixPath.normpath p) = false.
Proof.
  intros Hp. unfold PosixPath.normpath.
  destruct (String.eqb p ""); [reflexivity|].
  set (initial := PosixPath.initial_slashes p).
  set (comps := rev (PosixPath.norm_comps initial (PyStr.split PosixPath.sep p) [])).
  assert (Hjoin : PyStr.contains ".." (PyStr.join "/" comps) = false).
  { apply join_clean. subst comps. apply Forall_rev.
    apply norm_comps_subset; [now apply split_clean | constructor]. }
  assert (Hpath : PyStr.contains ".."
                    (if (initial =? 0)%nat then PyStr.join "/" comps
                     else PosixPath.repeat_sep initial ++ PyStr.join "/" comps) = false).
  { destruct (initial =? 0)%nat; [exact Hjoin|]. now apply repeat_sep_clean. }
  now destruct (String.eqb _ "").
Qed.

(** X23.  Whatever the input, sanitize_path returns a string without
    two dots in a row (the half of the path claim that holds). *)
Lemma sanitize_path_no_dots (path : string) :
  PyStr.contains ".." (sanitize_path path) = false.
Proof.
  unfold sanitize_path. destruct (PyStr.truthy path); cbn [negb]; [|reflexivity].
  apply normpath_clean.
  assert (H : PyStr.contains ".."
                (PyStr.replace "//" "/" (PyStr.replace ".." "" path)) = false).
  { apply halve_slashes_clean. apply strip_dots_clean. }
  destruct (PyStr.startswith "/" _); cbn [negb]; [exact H|].
  change ("/" ++ ?x) with (String "/" x). now rewrite contains_dots_cons, H.
Qed.

End PathSanitization.

Section ToolName.

(** What the pattern accepts from the position after the first
    character: a run of class characters, with or without one newline
    after it. *)
Lemma class_star_dollar_spec (s : string) :
  Re.class_star_dollar s = true <->
  all_tool_chars s = true \/
  exists w, s = w ++ String Re.newline "" /\ all_tool_chars w = true.
Proof.
  induction s as [|c s IH].
  - split; [now left | reflexivity].
  - cbn [Re.class_star_dollar all_tool_chars]. rewrite orb_true_iff, andb_true_iff, IH.
    split.
    + intros [[Hc [Hall|(w & -> & Hw)]]|Hd].
      * left. now rewrite Hc, Hall.
      * right. exists (String c w). split; [reflexivity|]. cbn [all_tool_chars]. now rewrite Hc, Hw.
      * destruct s as [|d s]; [|discriminate]. cbn in Hd.
        apply Ascii.eqb_eq in Hd. subst c. right. now exists "".
    + intros [Hall|(w & Hw & Hall)].
      * apply andb_true_iff in Hall as [Hc Hall]. left. split; [exact Hc | now left].
      * destruct w as [|d w].
        -- cbn in Hw. injection Hw as -> ->. right. reflexivity.
        -- cbn in Hw. injection Hw as -> ->. cbn [all_tool_chars] in Hall.
           apply andb_true_iff in Hall as [Hc Hall].
           left. split; [exact Hc|]. right. now exists w.
Qed.

(** X26.  The tool names that validate_tool lets through are the
    non-empty runs of class characters, and those runs followed by one
    newline. *)
Lemma validate_tool_accepts (v : string) :
  validate_tool v = Ok v <->
  exists w, w <> "" /\ all_tool_chars w = true /\
            (v = w \/ v = w ++ String Re.newline "").
Proof.
  unfold validate_tool, Re.match_tool_name. split.
  - destruct v as [|c s]; [discriminate|].
    destruct (Re.tool_char c) eqn:Hc; [|discriminate]. cbn [andb].
    destruct (Re.class_star_dollar s) eqn:Hs; [|discriminate]. intros _.
    apply class_star_dollar_spec in Hs as [Hall|(w & -> & Hw)].
    + exists (String c s). split; [discriminate|]. split; [|now left].
      cbn [all_tool_chars]. now rewrite Hc, Hall.
    + exists (String c w). split; [discriminate|]. split; [|now right].
      cbn [all_tool_chars]. now rewrite Hc, Hw.
  - intros (w & Hne & Hall & Hv). destruct w as [|c w]; [contradiction|].
    cbn [all_tool_chars] in Hall. apply andb_true_iff in Hall as [Hc Hall].
    assert (Hs : forall s, (s = w \/ s = w ++ String Re.newline "") ->
                           Re.class_star_dollar s = true).
    { intros s [->| ->]; apply class_star_dollar_spec; [now left | right; eauto]. }
    destruct Hv as [->| ->].
    + now rewrite Hc, Hs by auto.
    + change (String c w ++ String Re.newline "")
        with (String c (w ++ String Re.newline "")).
      cbv beta iota. now rewrite Hc, Hs by auto.
Qed.

End ToolName.

Section Routes.

Variable h : Host.
Variable cfg : Config.

(** POST /run answers a body whose arguments contain a refused character
    with 422, and run_tool is not reached. *)
Lemma post_run_refuses_dangerous_args tool args timeout working_dir w :
  existsb (fun char => PyStr.has_char char args) dangerous_chars = true ->
  post_run h cfg tool (Some args) timeout working_dir w = (HTTPException 422, w).
Proof.
  intros Hbad. unfold post_run, new_request, request_errors, validate_args.
  rewrite Hbad. destruct (validate_tool tool); cbn [app].
  - reflexivity.
  - reflexivity.
Qed.

(** POST /run answers a body whose timeout is above the ceiling with
    422, whatever the tool, and run_tool is not reached. *)
Lemma post_run_refuses_timeout tool args t working_dir w :
  (max_timeout cfg < t)%Z ->
  post_run h cfg tool args (Some t) working_dir w = (HTTPException 422, w).
Proof.
  intros Ht. unfold post_run, new_request, request_errors, timeout_field_ok.
  assert (Hle : (t <=? max_timeout cfg)%Z = false) by now apply Z.leb_gt.
  rewrite Hle, andb_false_r.
  destruct (validate_tool tool), (validate_args args); reflexivity.
Qed.

(** Every 200 reply of POST /run has success = True and return_code = 0. *)
Lemma run_tool_http_reply request w body :
  fst (run_tool_http h cfg request w) = Reply body ->
  success body = true /\ return_code body = 0%Z.
Proof.
  unfold run_tool_http.
  destruct (run_tool h cfg (req_tool request) (req_args request)
              (req_timeout request) (req_working_dir request) w) as [[out|e] w'].
  - cbn. intros [= <-]. now split.
  - destruct e; cbn; discriminate.
Qed.

(** run_tool launches nothing for a tool that fails the access check, so
    whatever it launches is on the allow-list. *)
Lemma run_tool_launch_allowed tool args timeout working_dir w :
  spawned (snd (run_tool h cfg tool args timeout working_dir w)) <> spawned w ->
  str_in tool (allowed_tools cfg) = true.
Proof.
  intros Hnew. destruct (validate_tool_access h cfg tool) eqn:Hv.
  - unfold validate_tool_access in Hv.
    now destruct (str_in tool (allowed_tools cfg)).
  - now rewrite run_tool_denied in Hnew.
Qed.

Lemma run_tool_http_world request w :
  snd (run_tool_http h cfg request w)
  = snd (run_tool h cfg (req_tool request) (req_args request)
                  (req_timeout request) (req_working_dir request) w).
Proof.
  unfold run_tool_http.
  destruct (run_tool h cfg (req_tool request) (req_args request)
              (req_timeout request) (req_working_dir request) w) as [[out|e] w'];
    [reflexivity | now destruct e].
Qed.

(** On the HTTP route both halves of the launch invariant hold: a launch
    means an allow-listed tool and arguments free of the refused
    characters. *)
Lemma post_run_launch_checked tool args timeout working_dir w :
  spawned (snd (post_run h cfg tool args timeout working_dir w)) <> spawned w ->
  str_in tool (allowed_tools cfg) = true /\
  match args with
  | Some s => existsb (fun char => PyStr.has_char char s) dangerous_chars = false
  | None => True
  end.
Proof.
  unfold post_run, new_request.
  destruct (request_errors cfg tool args timeout) as [|e errs] eqn:E;
    [|intros Hnew; now contradiction Hnew].
  rewrite run_tool_http_world. cbn [req_tool req_args req_timeout req_working_dir].
  intros Hnew. split; [now apply run_tool_launch_allowed in Hnew|].
  unfold request_errors, validate_args in E.
  destruct args as [s|]; [|exact I].
  destruct (existsb _ dangerous_chars); [|reflexivity].
  now destruct (validate_tool tool).
Qed.

(** The working directory of the launch exists when the child starts. *)
Lemma run_tool_cwd_exists tool args timeout working_dir w t tokens :
  validate_tool_access h cfg tool = true ->
  resolve_timeout cfg timeout = Some t ->
  tokens_of args = Some tokens ->
  dir_ready h w (chosen_dir cfg working_dir) ->
  exists l,
    spawned (snd (run_tool h cfg tool args timeout working_dir w))
    = (spawned w ++ [l])%list /\
    cwd (call l) = Some (chosen_dir cfg working_dir) /\
    chosen_dir cfg working_dir ∈ dirs_at_launch l.
Proof.
  intros Hv Ht Htok Hd.
  rewrite (run_tool_launch h cfg tool args timeout working_dir w t tokens Hv Ht Htok Hd).
  cbn [snd spawned]. eexists. split; [reflexivity|]. split; [reflexivity|].
  cbn [dirs_at_launch]. unfold with_dir.
  destruct (bool_decide (chosen_dir cfg working_dir ∈ dirs w)) eqn:E.
  - now apply bool_decide_eq_true in E.
  - cbn [dirs]. apply elem_of_union. left. now apply elem_of_singleton.
Qed.

End Routes.

(* --------------------------------------------------------------------- *)
(*  The definitions on the inputs of the repository's tests              *)
(* --------------------------------------------------------------------- *)

Section Tests.

Example sanitize_tmp_test : sanitize_path "/tmp/test" = "/tmp/test".
Proof. reflexivity. Qed.

Example sanitize_relative : sanitize_path "test" = "/test".
Proof. reflexivity. Qed.

Example sanitize_double : sanitize_path "//etc//passwd" = "/etc/passwd".
Proof. reflexivity. Qed.

Example normpath_keeps_two_slashes : PosixPath.normpath "//etc" = "//etc".
Proof. reflexivity. Qed.

Example normpath_three_slashes : PosixPath.normpath "///etc/./x/../y/" = "/etc/y".
Proof. reflexivity. Qed.

Example args_version_accepted : validate_args (Some "--version") = Ok (Some "--version").
Proof. reflexivity. Qed.

Example args_semicolon_refused :
  validate_args (Some "test; rm -rf /") = Raise (ValueError DangerousCharacters).
Proof. reflexivity. Qed.

Example tool_name_accepted : validate_tool "test-tool" = Ok "test-tool".
Proof. reflexivity. Qed.

Example tool_name_with_spaces_refused :
  validate_tool "tool with spaces" = Raise (ValueError InvalidToolName).
Proof. reflexivity. Qed.

Example shlex_plain : Shlex.split "-sS -O  192.168.1.1" = Some ["-sS"; "-O"; "192.168.1.1"].
Proof. reflexivity. Qed.

Example shlex_quoted : Shlex.split "-p '80 443' x\ y" = Some ["-p"; "80 443"; "x y"].
Proof. reflexivity. Qed.

Example shlex_unclosed : Shlex.split "-p '80" = None.
Proof. reflexivity. Qed.

Example disallowed_tool_denied :
  validate_tool_access Demo.host default_config "rm" = false.
Proof. reflexivity. Qed.

End Tests.

Section ShlexCharacters.

Variable c : ascii.

Lemma has_char_snoc (tok : string) (x : ascii) :
  PyStr.has_char c (Shlex.snoc tok x) = PyStr.has_char c tok || Ascii.eqb c x.
Proof.
  unfold Shlex.snoc. induction tok as [|a tok IH].
  - change (Ascii.eqb c x || false = false || Ascii.eqb c x). apply orb_false_r.
  - change (String a tok ++ String x "") with (String a (tok ++ String x "")).
    cbn [PyStr.has_char]. now rewrite IH, orb_assoc.
Qed.

Lemma emit_clean (quoted : bool) (tok : string) (later : list string) :
  PyStr.has_char c tok = false ->
  Forall (fun t => PyStr.has_char c t = false) later ->
  Forall (fun t => PyStr.has_char c t = false) (Shlex.emit quoted tok later).
Proof.
  intros Htok Hlater. unfold Shlex.emit.
  destruct (negb quoted && String.eqb tok ""); [assumption | now constructor].
Qed.

(** shlex builds its tokens from characters of its input: a character
    that the input does not have is in no token. *)
Lemma read_tokens_clean (input : string) :
  forall (st esc : Shlex.state) (quoted : bool) (tok : string) (toks : list string),
    PyStr.has_char c input = false ->
    PyStr.has_char c tok = false ->
    state_clean c st -> state_clean c esc ->
    Shlex.read_tokens input st esc quoted tok = Some toks ->
    Forall (fun t => PyStr.has_char c t = false) toks.
Proof.
  induction input as [|x rest IH]; intros st esc quoted tok toks Hin Htok Hst Hesc Hread.
  - cbn [Shlex.read_tokens] in Hread.
    destruct st; try discriminate; injection Hread as <-;
      now apply emit_clean; [|constructor].
  - cbn [PyStr.has_char] in Hin. apply orb_false_elim in Hin as [Hx Hrest].
    assert (Hsnoc : PyStr.has_char c (Shlex.snoc tok x) = false)
      by now rewrite has_char_snoc, Htok, Hx.
    assert (Hone : PyStr.has_char c (String x "") = false)
      by (cbn; now rewrite Hx).
    cbn [Shlex.read_tokens] in Hread. destruct st as [| |q|e].
    + destruct (Shlex.whitespace x).
      * destruct (PyStr.truthy tok || quoted).
        -- destruct (Shlex.read_tokens rest Shlex.White Shlex.White false "")
             as [later|] eqn:Hl; [|discriminate].
           injection Hread as <-. apply emit_clean; [assumption|].
           now apply (IH Shlex.White Shlex.White false "" later Hrest eq_refl I I Hl).
        -- refine (IH _ _ _ _ _ Hrest Htok _ _ Hread); first [exact I | assumption].
      * destruct (Shlex.escape x).
        -- refine (IH _ _ _ _ _ Hrest Htok _ _ Hread); first [exact I | assumption].
        -- destruct (Shlex.quotes x).
           ++ refine (IH _ _ _ _ _ Hrest Htok _ _ Hread); first [exact I | assumption].
           ++ refine (IH _ _ _ _ _ Hrest Hone _ _ Hread); first [exact I | assumption].
    + destruct (Shlex.whitespace x).
      * destruct (PyStr.truthy tok || quoted).
        -- destruct (Shlex.read_tokens rest Shlex.White Shlex.White false "")
             as [later|] eqn:Hl; [|discriminate].
           injection Hread as <-. apply emit_clean; [assumption|].
           now apply (IH Shlex.White Shlex.White false "" later Hrest eq_refl I I Hl).
        -- refine (IH _ _ _ _ _ Hrest Htok _ _ Hread); first [exact I | assumption].
      * destruct (Shlex.quotes x).
        -- refine (IH _ _ _ _ _ Hrest Htok _ _ Hread); first [exact I | assumption].
        -- destruct (Shlex.escape x).
           ++ refine (IH _ _ _ _ _ Hrest Htok _ _ Hread); first [exact I | assumption].
           ++ refine (IH _ _ _ _ _ Hrest Hsnoc _ _ Hread); first [exact I | assumption].
    + destruct (Ascii.eqb x q).
      * refine (IH _ _ _ _ _ Hrest Htok _ _ Hread); first [exact I | assumption].
      * destruct (Shlex.escape x && Shlex.escapedquotes q).
        -- refine (IH _ _ _ _ _ Hrest Htok _ _ Hread); first [exact I | assumption].
        -- refine (IH _ _ _ _ _ Hrest Hsnoc _ _ Hread); first [exact I | assumption].
    + cbn [state_clean] in Hst.
      refine (IH _ _ _ _ _ Hrest _ Hesc Hesc Hread).
      rewrite has_char_snoc, Hx, orb_false_r.
      destruct esc as [| |q|e']; try assumption.
      destruct (negb (Ascii.eqb x e) && negb (Ascii.eqb x q)); [|assumption].
      now rewrite has_char_snoc, Htok, Hst.
Qed.

End ShlexCharacters.

Section PlainArguments.





End PlainArguments.

Lemma sandbox_environment_keep (h : Host) (working_dir : string) :
  create_sandbox_environment h working_dir
  = <[ "LD_LIBRARY_PATH" := "" ]>
      (<[ "LD_PRELOAD" := "" ]>
         (<[ "PWD" := working_dir ]> (foldl (keep (environ h)) ∅ restricted_vars))).
Proof. reflexivity. Qed.


(* ===================================================================== *)
(*  The properties of the specification                                   *)
(* ===================================================================== *)

(** C1.  run_tool, which MCP clients call directly, makes no check of the
    argument string: on a host with nmap, the arguments [-V; id], which
    validate_args refuses and POST /run answers with 422, are tokenized
    and the process is launched. *)
Theorem run_tool_launches_forbidden_arguments :
  validate_args (Some "-V; id") = Raise (ValueError DangerousCharacters) /\
  post_run Demo.host default_config "nmap" (Some "-V; id") None None Demo.boot
  = (HTTPException 422, Demo.boot) /\
  let r := run_tool Demo.host default_config "nmap" (Some "-V; id") None None Demo.boot in
  fst r = Ok "nmap: unrecognized option" /\
  (fun l => argv (call l)) <$> spawned (snd r) = [["nmap"; "-V;"; "id"]].
Proof. vm_compute. repeat split. Qed.

(** C2.  POST /run reports return_code 0 for a child that exits with
    another code: nmap exits with 255 here, and the reply says success
    with return_code 0. *)
Theorem run_tool_http_reports_zero_exit_code :
  let request := {| req_tool := "nmap"; req_args := Some "--bogus";
                    req_timeout := None; req_working_dir := None |} in
  child Demo.host (tool_call Demo.host "nmap" ["--bogus"] 60 "/tmp/kali-mcp")
  = Exited Demo.nmap_bad_option /\
  returncode Demo.nmap_bad_option = 255%Z /\
  call <$> spawned (snd (run_tool_http Demo.host default_config request Demo.boot))
  = [tool_call Demo.host "nmap" ["--bogus"] 60 "/tmp/kali-mcp"] /\
  fst (run_tool_http Demo.host default_config request Demo.boot)
  = Reply {| success := true; output := "nmap: unrecognized option"; error := None;
             resp_tool := "nmap"; resp_args := Some "--bogus"; return_code := 0 |}.
Proof. vm_compute. repeat split. Qed.

(** C3.  sanitize_path turns ../../../etc/passwd into //etc/passwd, which
    has no two dots in a row but starts with a doubled separator. *)
Theorem sanitize_path_leaves_double_separator :
  sanitize_path "../../../etc/passwd" = "//etc/passwd" /\
  PyStr.contains "//" (sanitize_path "../../../etc/passwd") = true /\
  PyStr.contains ".." (sanitize_path "../../../etc/passwd") = false.
Proof. vm_compute. repeat split. Qed.




(** C5.  With the default root /tmp/kali-mcp, a caller that asks for the
    working directory /etc has the tool run in /etc, which is not under
    the root. *)
Theorem run_tool_working_dir_escapes_root :
  let r := run_tool Demo.host default_config "nmap" (Some "-V") None (Some "/etc")
                    Demo.boot in
  fst r = Ok "Nmap version 7.94" /\
  (fun l => cwd (call l)) <$> spawned (snd r) = [Some "/etc"] /\
  under (working_directory default_config) "/etc" = false.
Proof. vm_compute. repeat split. Qed.




(** C7, as the claim states it, fails: a timeout above the ceiling that
    comes with a tool outside the allow-list is answered with the
    SecurityError of the access check, which run_tool makes first. *)
Lemma timeout_above_ceiling_not_always_value_error :
  ~ (forall (h : Host) (cfg : Config) (tool : string) (args : option string)
            (t : Z) (working_dir : option string) (w : World),
        (max_timeout cfg < t)%Z ->
        exists why,
          fst (run_tool h cfg tool args (Some t) working_dir w) = Raise (ValueError why)).
Proof.
  intros H.
  destruct (H Demo.host default_config "rm" None 999999%Z None Demo.boot) as [why Hwhy].
  - cbn. lia.
  - rewrite run_tool_denied in Hwhy by reflexivity. discriminate.
Qed.

(** C7, amended.  A request whose timeout is above the ceiling is refused
    by run_tool before any directory is made or process launched, and the
    timeout is not clamped: the refusal is the ValueError of the timeout
    check when the tool passes the access check, and the SecurityError of
    the access check when it does not; POST /run refuses it with 422
    before run_tool is called.  A request without a timeout that passes
    the checks before the launch runs under the default timeout. *)
Theorem run_tool_timeout_above_ceiling
        (h : Host) (cfg : Config) (tool : string) (args : option string)
        (working_dir : option string) (w : World) (t : Z) :
  (max_timeout cfg < t)%Z ->
  run_tool h cfg tool args (Some t) working_dir w
  = (Raise (if validate_tool_access h cfg tool
            then ValueError (TimeoutExceedsMaximum t (max_timeout cfg))
            else SecurityError tool), w)
  /\
  post_run h cfg tool args (Some t) working_dir w = (HTTPException 422, w)
  /\
  (forall tokens,
      validate_tool_access h cfg tool = true ->
      tokens_of args = Some tokens ->
      dir_ready h w (chosen_dir cfg working_dir) ->
      exists l,
        spawned (snd (run_tool h cfg tool args None working_dir w))
        = (spawned w ++ [l])%list /\
        timeout (call l) = default_timeout cfg).
Proof.
  intros Ht. split; [|split].
  - destruct (validate_tool_access h cfg tool) eqn:Hv.
    + now apply run_tool_timeout_refused.
    + now apply run_tool_denied.
  - now apply post_run_refuses_timeout.
  - intros tokens Hv Htok Hd.
    rewrite (run_tool_launch h cfg tool args None working_dir w
               (default_timeout cfg) tokens Hv eq_refl Htok Hd).
    cbn [snd spawned]. eexists. split; reflexivity.
Qed.

(** The timeout 999999 of the tests against the default ceiling of 300. *)
Lemma run_tool_timeout_above_ceiling_witness :
  run_tool Demo.host default_config "nmap" (Some "-V") (Some 999999%Z) None Demo.boot
  = (Raise (ValueError (TimeoutExceedsMaximum 999999 300)), Demo.boot)
  /\
  post_run Demo.host default_config "nmap" (Some "-V") (Some 999999%Z) None Demo.boot
  = (HTTPException 422, Demo.boot)
  /\
  exists l,
    spawned (snd (run_tool Demo.host default_config "nmap" (Some "-V") None None
                           Demo.boot))
    = [l] /\
    timeout (call l) = 60%Z.
Proof.
  destruct (run_tool_timeout_above_ceiling Demo.host default_config "nmap" (Some "-V")
              None Demo.boot 999999%Z) as (Hrefused & Hhttp & Hdefault).
  - cbn. lia.
  - split; [exact Hrefused|]. split; [exact Hhttp|].
    apply (Hdefault ["-V"]); [reflexivity | reflexivity | right; reflexivity].
Defined.

(** C8.  validate_tool accepts a tool name that ends in a newline, a
    character outside the class of the pattern: [$] also matches just
    before a final newline. *)
Theorem validate_tool_accepts_trailing_newline :
  let v := "nmap" ++ String Re.newline "" in
  Re.tool_char Re.newline = false /\
  PyStr.has_char Re.newline v = true /\
  validate_tool v = Ok v /\
  request_errors default_config v None None = [].
Proof. vm_compute. repeat split. Qed.

(** C9.  Whatever the inherited environment and the working directory,
    the sandbox environment binds no name outside PATH, HOME, USER, SHELL,
    PWD, LANG, LC_ALL, LD_PRELOAD and LD_LIBRARY_PATH; PWD is the working
    directory, LD_PRELOAD and LD_LIBRARY_PATH are the empty string, and
    the other retained names keep the value they are inherited with. *)
Theorem sandbox_environment_contents (h : Host) (working_dir : string) :
  let e := create_sandbox_environment h working_dir in
  (forall k : string,
      is_Some (e !! k) ->
      k ∈ (restricted_vars ++ ["LD_PRELOAD"; "LD_LIBRARY_PATH"])%list) /\
  e !! "PWD" = Some working_dir /\
  e !! "LD_PRELOAD" = Some "" /\
  e !! "LD_LIBRARY_PATH" = Some "" /\
  (forall k : string,
      k ∈ ["PATH"; "HOME"; "USER"; "SHELL"; "LANG"; "LC_ALL"] ->
      e !! k = environ h !! k).
Proof.
  intros e. subst e. unfold create_sandbox_environment.
  change (foldl _ ∅ restricted_vars) with (foldl (keep (environ h)) ∅ restricted_vars).
  repeat split.
  - intros k [v Hk].
    destruct (decide (k ∈ (restricted_vars ++ ["LD_PRELOAD"; "LD_LIBRARY_PATH"])%list))
      as [Hin|Hout]; [assumption|exfalso].
    rewrite lookup_insert_ne in Hk by (intros <-; apply Hout; in_list).
    rewrite lookup_insert_ne in Hk by (intros <-; apply Hout; in_list).
    rewrite lookup_insert_ne in Hk by (intros <-; apply Hout; in_list).
    rewrite foldl_keep_outside in Hk
      by (intros Hin; apply Hout; apply elem_of_app; now left).
    now rewrite lookup_empty in Hk.
  - rewrite lookup_insert_ne by discriminate.
    rewrite lookup_insert_ne by discriminate.
    apply lookup_insert_eq.
  - rewrite lookup_insert_ne by discriminate. apply lookup_insert_eq.
  - apply lookup_insert_eq.
  - intros k Hk. apply list_elem_of_In in Hk. cbn [In] in Hk.
    assert (Hr : k ∈ restricted_vars).
    { apply list_elem_of_In. cbn [restricted_vars In]. tauto. }
    assert (Hne : k <> "PWD" /\ k <> "LD_PRELOAD" /\ k <> "LD_LIBRARY_PATH").
    { repeat split; intros ->; intuition discriminate. }
    destruct Hne as (H1 & H2 & H3).
    rewrite lookup_insert_ne by congruence.
    rewrite lookup_insert_ne by congruence.
    rewrite lookup_insert_ne by congruence.
    rewrite (foldl_keep_inside _ _ _ _ Hr).
    rewrite lookup_empty. now destruct (environ h !! k).
Qed.

(** On the demonstration host, whose environment carries an API token and
    an LD_PRELOAD: the token is dropped and LD_PRELOAD is emptied. *)
Lemma sandbox_environment_contents_witness :
  let e := create_sandbox_environment Demo.host "/tmp/test" in
  e !! "PWD" = Some "/tmp/test" /\
  e !! "LD_PRELOAD" = Some "" /\
  e !! "LD_LIBRARY_PATH" = Some "" /\
  e !! "PATH" = Some "/usr/bin" /\
  e !! "API_TOKEN" = None.
Proof.
  intros e.
  destruct (sandbox_environment_contents Demo.host "/tmp/test")
    as (Honly & Hpwd & Hpre & Hlib & Hkept).
  split; [exact Hpwd|]. split; [exact Hpre|]. split; [exact Hlib|]. split.
  - fold e in Hkept. rewrite (Hkept "PATH") by in_list. reflexivity.
  - apply eq_None_not_Some. intros Hsome. apply Honly in Hsome.
    apply list_elem_of_In in Hsome. cbn in Hsome. intuition discriminate.
Defined.




(* ===================================================================== *)
(*  Further properties of the server                                      *)
(* ===================================================================== *)

Section RunToolCases.

Variable h : Host.
Variable cfg : Config.

Lemma makedirs_cases (w : World) (d : string) :
  os_makedirs h d w
  = if bool_decide (d ∈ dirs w) || can_mkdir h d
    then (Ok tt, with_dir w d) else (Raise OSError, w).
Proof.
  unfold os_makedirs, with_dir.
  destruct (bool_decide (d ∈ dirs w)); [reflexivity|].
  now destruct (can_mkdir h d).
Qed.

Lemma with_dir_spawned (w : World) (d : string) : spawned (with_dir w d) = spawned w.
Proof. unfold with_dir. now destruct (bool_decide _). Qed.

Lemma with_dir_dirs (w : World) (d : string) : dirs (with_dir w d) = {[ d ]} ∪ dirs w.
Proof.
  unfold with_dir. destruct (bool_decide (d ∈ dirs w)) eqn:E; [|reflexivity].
  apply bool_decide_eq_true in E. apply leibniz_equiv. set_unfold. intros x.
  split; [now right | intros [->|Hx]; assumption].
Qed.

(** run_tool, case by case. *)
Lemma run_tool_cases tool args timeout working_dir w :
  run_tool h cfg tool args timeout working_dir w
  = run_tool_steps h cfg tool args timeout working_dir w.
Proof.
  unfold run_tool_steps.
  destruct (validate_tool_access h cfg tool) eqn:Hv; cbn [negb];
    [|now apply run_tool_denied].
  destruct (resolve_timeout cfg timeout) as [t|] eqn:Ht.
  - destruct (bool_decide (chosen_dir cfg working_dir ∈ dirs w)
              || can_mkdir h (chosen_dir cfg working_dir)) eqn:Hd.
    + assert (Hready : dir_ready h w (chosen_dir cfg working_dir)).
      { apply orb_true_iff in Hd as [Hin|Hmk]; [left|now right].
        now apply bool_decide_eq_true in Hin. }
      destruct (tokens_of args) as [tokens|] eqn:Htok;
        [now apply run_tool_launch|].
      (* the arguments do not tokenize *)
      unfold run_tool. rewrite Hv. cbn [negb]. unfold bind at 1.
      unfold resolve_timeout in Ht.
      replace (match timeout with
               | Some t0 =>
                   if (t0 >? max_timeout cfg)%Z
                   then raise (ValueError (TimeoutExceedsMaximum t0 (max_timeout cfg)))
                   else ret t0
               | None => ret (default_timeout cfg)
               end w) with (@Ok Z t, w)
        by (destruct timeout as [t0|];
            [destruct (t0 >? max_timeout cfg)%Z; [discriminate | now inversion Ht]
            | now inversion Ht]).
      unfold bind at 1. unfold chosen_dir in *. unfold tokens_of in Htok.
      destruct working_dir as [d0|].
      * destruct (PyStr.truthy d0).
        -- rewrite (prepare_ready h _ _ Hready). unfold bind at 1.
           destruct (opt_truthy args); [now rewrite Htok | discriminate].
        -- unfold bind at 1. rewrite (makedirs_ready h _ _ Hready). cbn [ret].
           unfold bind at 1.
           destruct (opt_truthy args); [now rewrite Htok | discriminate].
      * unfold bind at 1. rewrite (makedirs_ready h _ _ Hready). cbn [ret].
        unfold bind at 1.
        destruct (opt_truthy args); [now rewrite Htok | discriminate].
    + (* the working directory cannot be made *)
      apply orb_false_iff in Hd as [Hin Hmk].
      unfold run_tool. rewrite Hv. cbn [negb]. unfold bind at 1.
      unfold resolve_timeout in Ht.
      replace (match timeout with
               | Some t0 =>
                   if (t0 >? max_timeout cfg)%Z
                   then raise (ValueError (TimeoutExceedsMaximum t0 (max_timeout cfg)))
                   else ret t0
               | None => ret (default_timeout cfg)
               end w) with (@Ok Z t, w)
        by (destruct timeout as [t0|];
            [destruct (t0 >? max_timeout cfg)%Z; [discriminate | now inversion Ht]
            | now inversion Ht]).
      unfold bind at 1. unfold chosen_dir in *.
      destruct working_dir as [d0|].
      * destruct (PyStr.truthy d0).
        -- unfold bind at 1. unfold os_path_exists. rewrite Hin. cbn [negb].
           unfold bind at 1. now rewrite makedirs_cases, Hin, Hmk.
        -- unfold bind at 1. now rewrite makedirs_cases, Hin, Hmk.
      * unfold bind at 1. now rewrite makedirs_cases, Hin, Hmk.
  - unfold resolve_timeout in Ht. destruct timeout as [t0|]; [|discriminate].
    destruct (t0 >? max_timeout cfg)%Z eqn:E; [|discriminate].
    apply Z.gtb_lt in E. now apply run_tool_timeout_refused.
Qed.

End RunToolCases.

(** X1.  Whatever the request and the host, run_tool makes at most one
    subprocess.run call, and a call it makes is for a tool that passes
    the access check, has the tool name as the first element of its
    argument vector, runs in the chosen working directory, which exists
    at that moment, and goes through no shell. *)
Theorem run_tool_at_most_one_launch
        (h : Host) (cfg : Config) (tool : string) (args : option string)
        (timeout : option Z) (working_dir : option string) (w : World) :
  let w' := snd (run_tool h cfg tool args timeout working_dir w) in
  spawned w' = spawned w \/
  exists l,
    spawned w' = (spawned w ++ [l])%list /\
    validate_tool_access h cfg tool = true /\
    hd_error (argv (call l)) = Some tool /\
    cwd (call l) = Some (chosen_dir cfg working_dir) /\
    chosen_dir cfg working_dir ∈ dirs_at_launch l /\
    shell (call l) = false.
Proof.
  intros w'. subst w'. rewrite run_tool_cases. unfold run_tool_steps.
  destruct (validate_tool_access h cfg tool); cbn [negb]; [|now left].
  destruct (resolve_timeout cfg timeout) as [t|]; [|now left].
  destruct (bool_decide _ || can_mkdir h _); [|now left].
  destruct (tokens_of args) as [tokens|].
  - right. eexists. split; [reflexivity|]. cbn.
    repeat split. rewrite with_dir_dirs. apply elem_of_union. left.
    now apply elem_of_singleton.
  - left. cbn [snd]. apply with_dir_spawned.
Qed.

(** X3.  Arguments that do not tokenize (an unclosed quotation, a
    dangling escape) are found out only after the working directory has
    been prepared: run_tool raises the ValueError of the arguments and
    launches nothing, but the directory has been made. *)
Theorem run_tool_bad_quoting_after_mkdir
        (h : Host) (cfg : Config) (tool : string) (args : option string)
        (timeout : option Z) (working_dir : option string) (w : World) (t : Z) :
  validate_tool_access h cfg tool = true ->
  resolve_timeout cfg timeout = Some t ->
  dir_ready h w (chosen_dir cfg working_dir) ->
  tokens_of args = None ->
  let r := run_tool h cfg tool args timeout working_dir w in
  fst r = Raise (ValueError InvalidArguments) /\
  spawned (snd r) = spawned w /\
  chosen_dir cfg working_dir ∈ dirs (snd r).
Proof.
  intros Hv Ht Hd Htok r. subst r. rewrite run_tool_cases. unfold run_tool_steps.
  rewrite Hv, Ht, Htok. cbn [negb].
  replace (bool_decide (chosen_dir cfg working_dir ∈ dirs w)
           || can_mkdir h (chosen_dir cfg working_dir)) with true.
  - cbn [fst snd]. split; [reflexivity|]. split; [apply with_dir_spawned|].
    rewrite with_dir_dirs. apply elem_of_union. left. now apply elem_of_singleton.
  - symmetry. apply orb_true_iff. destruct Hd as [Hin|Hmk]; [left|now right].
    now apply bool_decide_eq_true.
Qed.

(** A lone quote as the arguments, with a working directory of the
    caller's. *)
Lemma run_tool_bad_quoting_after_mkdir_witness :
  let r := run_tool Demo.host default_config "nmap" (Some "'") None
                    (Some "/srv/scans") Demo.boot in
  fst r = Raise (ValueError InvalidArguments) /\
  spawned (snd r) = [] /\
  "/srv/scans" ∈ dirs (snd r).
Proof.
  apply (run_tool_bad_quoting_after_mkdir Demo.host default_config "nmap" (Some "'")
           None (Some "/srv/scans") Demo.boot 60%Z).
  - reflexivity.
  - reflexivity.
  - right. reflexivity.
  - reflexivity.
Defined.



Section HttpStatus.

Variable h : Host.
Variable cfg : Config.

Lemma dir_ready_bool (w : World) (d : string) :
  bool_decide (d ∈ dirs w) || can_mkdir h d = true <-> dir_ready h w d.
Proof.
  unfold dir_ready. rewrite orb_true_iff, bool_decide_eq_true. reflexivity.
Qed.

(** A request that the request model accepts has a timeout that run_tool
    accepts as well. *)
Lemma accepted_timeout_resolves tool args timeout :
  request_errors cfg tool args timeout = [] ->
  exists t, resolve_timeout cfg timeout = Some t.
Proof.
  unfold request_errors, resolve_timeout. intros E.
  apply app_eq_nil in E as [_ E]. apply app_eq_nil in E as [_ E].
  destruct timeout as [t|]; [|now eexists].
  unfold timeout_field_ok in E.
  destruct ((1 <=? t)%Z && (t <=? max_timeout cfg)%Z) eqn:Hb; [|discriminate].
  apply andb_true_iff in Hb as [_ Hle]. apply Z.leb_le in Hle.
  destruct (t >? max_timeout cfg)%Z eqn:Hgt; [|now eexists].
  apply Z.gtb_lt in Hgt. lia.
Qed.

End HttpStatus.

(** X5.  POST /run's handler answers 403 exactly for the tools that fail
    the access check (not on the allow-list, not found, or not
    executable), whatever the rest of the request. *)
Theorem run_tool_http_403_iff_denied
        (h : Host) (cfg : Config) (request : ToolExecutionRequest) (w : World) :
  fst (run_tool_http h cfg request w) = HTTPException 403 <->
  validate_tool_access h cfg (req_tool request) = false.
Proof.
  unfold run_tool_http. rewrite run_tool_cases. unfold run_tool_steps, tool_result.
  destruct (validate_tool_access h cfg (req_tool request)); cbn [negb fst].
  - destruct (resolve_timeout cfg (req_timeout request));
      [|split; intros H; discriminate H].
    destruct (bool_decide _ || can_mkdir h _); [|split; intros H; discriminate H].
    destruct (tokens_of (req_args request)); [|split; intros H; discriminate H].
    destruct (child h _); split; intros H; discriminate H.
  - now split.
Qed.

(** X6.  On the route POST /run the timeout check of run_tool can never
    fire, since the request model has bounded the timeout before: for a
    request that the model accepts, run_tool settles on the default
    timeout or on the caller's, which lies between 1 and the ceiling;
    it does not raise the ValueError of the timeout check; and a
    subprocess.run call that it makes carries the timeout settled on. *)
Theorem post_run_timeout_check_unreachable
        (h : Host) (cfg : Config) (tool : string) (args : option string)
        (timeout : option Z) (working_dir : option string) (w : World) :
  request_errors cfg tool args timeout = [] ->
  exists t : Z,
    resolve_timeout cfg timeout = Some t /\
    (timeout = None /\ t = default_timeout cfg \/
     timeout = Some t /\ (1 <= t <= max_timeout cfg)%Z) /\
    post_run h cfg tool args timeout working_dir w
    = run_tool_http h cfg {| req_tool := tool; req_args := args; req_timeout := timeout;
                             req_working_dir := working_dir |} w /\
    (forall t' m : Z,
        fst (run_tool h cfg tool args timeout working_dir w)
        <> Raise (ValueError (TimeoutExceedsMaximum t' m))) /\
    (forall l : Launch,
        l ∈ spawned (snd (post_run h cfg tool args timeout working_dir w)) ->
        l ∈ spawned w \/ launch_timeout l = t).
Proof.
  intros E.
  destruct (accepted_timeout_resolves cfg tool args timeout E) as [t Ht].
  exists t. split; [exact Ht|]. split; [|split; [|split]].
  - unfold request_errors in E.
    apply app_eq_nil in E as [_ E]. apply app_eq_nil in E as [_ E].
    unfold resolve_timeout in Ht. destruct timeout as [t0|].
    + right. unfold timeout_field_ok in E.
      destruct ((1 <=? t0)%Z && (t0 <=? max_timeout cfg)%Z) eqn:Hb; [|discriminate].
      apply andb_true_iff in Hb as [H1 H2]. apply Z.leb_le in H1, H2.
      destruct (t0 >? max_timeout cfg)%Z; [discriminate|].
      injection Ht as <-. now split.
    + left. injection Ht as <-. now split.
  - unfold post_run, new_request. now rewrite E.
  - intros t' m. rewrite run_tool_cases. unfold run_tool_steps, tool_result. rewrite Ht.
    destruct (validate_tool_access h cfg tool); cbn [negb fst]; [|discriminate].
    destruct (bool_decide _ || can_mkdir h _); [|discriminate].
    destruct (tokens_of args); [|discriminate].
    cbn [fst]. destruct (child h _); discriminate.
  - intros l. unfold post_run, new_request. rewrite E. unfold run_tool_http.
    cbn [req_tool req_args req_timeout req_working_dir].
    rewrite run_tool_cases. unfold run_tool_steps, tool_result. rewrite Ht.
    destruct (validate_tool_access h cfg tool); cbn [negb]; [|now left].
    destruct (bool_decide _ || can_mkdir h _); [|now left].
    destruct (tokens_of args) as [tokens|].
    + destruct (child h _); cbn [snd spawned]; intros Hl;
        (apply elem_of_app in Hl as [Hl|Hl]; [now left|right];
         apply list_elem_of_singleton in Hl; now subst l).
    + cbn [snd]. rewrite with_dir_spawned. now left.
Qed.

(** A request with a timeout of ten seconds, which is launched under it. *)
Lemma post_run_timeout_check_unreachable_witness :
  exists t : Z,
    resolve_timeout default_config (Some 10%Z) = Some t /\
    (Some 10%Z = None /\ t = default_timeout default_config \/
     Some 10%Z = Some t /\ (1 <= t <= max_timeout default_config)%Z) /\
    post_run Demo.host default_config "nmap" (Some "-V") (Some 10%Z) None Demo.boot
    = run_tool_http Demo.host default_config
        {| req_tool := "nmap"; req_args := Some "-V"; req_timeout := Some 10%Z;
           req_working_dir := None |} Demo.boot /\
    (forall t' m : Z,
        fst (run_tool Demo.host default_config "nmap" (Some "-V") (Some 10%Z) None Demo.boot)
        <> Raise (ValueError (TimeoutExceedsMaximum t' m))) /\
    (forall l : Launch,
        l ∈ spawned (snd (post_run Demo.host default_config "nmap" (Some "-V")
                                   (Some 10%Z) None Demo.boot)) ->
        l ∈ spawned Demo.boot \/ launch_timeout l = t).
Proof.
  apply (post_run_timeout_check_unreachable Demo.host default_config "nmap" (Some "-V")
           (Some 10%Z) None Demo.boot).
  reflexivity.
Defined.

(** X7.  A 200 answer of POST /run's handler means that the child was
    launched and ran to its end: the body repeats the tool and the
    arguments of the request, carries no error, and its output is the
    capped concatenation of what the child wrote to stdout and stderr. *)
Theorem run_tool_http_200_content
        (h : Host) (cfg : Config) (request : ToolExecutionRequest) (w : World)
        (body : ToolExecutionResponse) :
  fst (run_tool_http h cfg request w) = Reply body ->
  resp_tool body = req_tool request /\
  resp_args body = req_args request /\
  error body = None /\
  exists t tokens proc,
    resolve_timeout cfg (req_timeout request) = Some t /\
    tokens_of (req_args request) = Some tokens /\
    child h (tool_call h (req_tool request) tokens t
                       (chosen_dir cfg (req_working_dir request))) = Exited proc /\
    output body = cap_output cfg (stdout proc ++ stderr proc).
Proof.
  unfold run_tool_http. rewrite run_tool_cases. unfold run_tool_steps, tool_result.
  destruct (validate_tool_access h cfg (req_tool request)); cbn [negb fst];
    [|discriminate].
  destruct (resolve_timeout cfg (req_timeout request)) as [t|]; [|discriminate].
  destruct (bool_decide _ || can_mkdir h _); [|discriminate].
  destruct (tokens_of (req_args request)) as [tokens|]; [|discriminate].
  destruct (child h _) as [proc| | |] eqn:Hchild; cbn [fst]; try discriminate.
  intros [= <-]. cbn. repeat split. exists t, tokens, proc. now repeat split.
Qed.

Lemma run_tool_http_200_content_witness :
  let request := {| req_tool := "nmap"; req_args := Some "--version";
                    req_timeout := Some 10%Z; req_working_dir := None |} in
  exists body,
    fst (run_tool_http Demo.host default_config request Demo.boot) = Reply body /\
    resp_tool body = "nmap" /\
    resp_args body = Some "--version" /\
    error body = None.
Proof.
  intros request. eexists. split; [reflexivity|].
  destruct (run_tool_http_200_content Demo.host default_config request Demo.boot _
              eq_refl) as (Htool & Hargs & Herr & _).
  split; [exact Htool|]. split; [exact Hargs | exact Herr].
Defined.

(** X8.  A child that runs into the timeout makes run_tool raise a
    TimeoutError that names the tool and the timeout in force; the launch
    is on the log, no output is returned, and POST /run answers 408. *)
Theorem run_tool_timeout_reported
        (h : Host) (cfg : Config) (request : ToolExecutionRequest) (w : World)
        (t : Z) (tokens : list string) :
  validate_tool_access h cfg (req_tool request) = true ->
  resolve_timeout cfg (req_timeout request) = Some t ->
  tokens_of (req_args request) = Some tokens ->
  dir_ready h w (chosen_dir cfg (req_working_dir request)) ->
  child h (tool_call h (req_tool request) tokens t
                     (chosen_dir cfg (req_working_dir request))) = TimedOut ->
  fst (run_tool h cfg (req_tool request) (req_args request) (req_timeout request)
                (req_working_dir request) w)
  = Raise (TimeoutError (req_tool request) t) /\
  fst (run_tool_http h cfg request w) = HTTPException 408 /\
  length (spawned (snd (run_tool_http h cfg request w))) = S (length (spawned w)).
Proof.
  intros Hv Ht Htok Hd Hchild.
  pose proof (run_tool_launch h cfg _ _ _ _ w t tokens Hv Ht Htok Hd) as Hrun.
  cbv zeta in Hrun. rewrite Hchild in Hrun. cbn [tool_result] in Hrun.
  split; [now rewrite Hrun|]. unfold run_tool_http. rewrite Hrun. cbn [fst snd spawned].
  split; [reflexivity|]. rewrite length_app. cbn. lia.
Qed.

Lemma run_tool_timeout_reported_witness :
  let request := {| req_tool := "nmap"; req_args := Some "-sS 10.0.0.1";
                    req_timeout := Some 2%Z; req_working_dir := None |} in
  fst (run_tool Hosts.slow default_config "nmap" (Some "-sS 10.0.0.1") (Some 2%Z) None
                Demo.boot)
  = Raise (TimeoutError "nmap" 2) /\
  fst (run_tool_http Hosts.slow default_config request Demo.boot) = HTTPException 408 /\
  length (spawned (snd (run_tool_http Hosts.slow default_config request Demo.boot))) = 1.
Proof.
  intros request.
  apply (run_tool_timeout_reported Hosts.slow default_config request Demo.boot 2%Z
           ["-sS"; "10.0.0.1"]).
  - reflexivity.
  - reflexivity.
  - reflexivity.
  - right. reflexivity.
  - reflexivity.
Defined.

(** X9.  With a cap that is not negative, no output that run_tool returns
    is longer than the cap plus the truncation marker. *)
Theorem run_tool_output_bounded
        (h : Host) (cfg : Config) (tool : string) (args : option string)
        (timeout : option Z) (working_dir : option string) (w : World) (out : string) :
  (0 <= max_output_size cfg)%Z ->
  fst (run_tool h cfg tool args timeout working_dir w) = Ok out ->
  (PyStr.len out <= max_output_size cfg + PyStr.len truncation_marker)%Z.
Proof.
  intros Hcap. rewrite run_tool_cases. unfold run_tool_steps, tool_result.
  destruct (validate_tool_access h cfg tool); cbn [negb fst]; [|discriminate].
  destruct (resolve_timeout cfg timeout) as [t|]; [|discriminate].
  destruct (bool_decide _ || can_mkdir h _); [|discriminate].
  destruct (tokens_of args) as [tokens|]; [|discriminate].
  destruct (child h _) as [proc| | |]; cbn [fst]; try discriminate.
  intros [= <-]. set (captured := stdout proc ++ stderr proc).
  destruct (cap_output_cases cfg captured Hcap) as [Hover Hunder].
  destruct (Z_lt_le_dec (max_output_size cfg) (PyStr.len captured)) as [Hlt|Hle].
  - rewrite (Hover Hlt). unfold PyStr.len in *. rewrite append_length.
    rewrite take_length by lia. lia.
  - rewrite (Hunder Hle). unfold PyStr.len in *. lia.
Qed.

Lemma run_tool_output_bounded_witness :
  let cfg := {| max_timeout := 300; default_timeout := 60; max_output_size := 4;
                allowed_tools := ["nmap"]; working_directory := "/tmp/kali-mcp" |} in
  exists out,
    fst (run_tool Demo.host cfg "nmap" (Some "--version") None None Demo.boot) = Ok out /\
    (PyStr.len out <= 4 + PyStr.len truncation_marker)%Z.
Proof.
  intros cfg. eexists. split; [reflexivity|].
  apply (run_tool_output_bounded Demo.host cfg "nmap" (Some "--version") None None
           Demo.boot).
  - cbn. lia.
  - reflexivity.
Defined.

Lemma shlex_blank (s : string) :
  all_whitespace s = true -> Shlex.read_tokens s Shlex.White Shlex.White false "" = Some [].
Proof.
  induction s as [|c s IH]; [reflexivity|]. cbn [all_whitespace].
  intros H. apply andb_true_iff in H as [Hc Hs].
  cbn [Shlex.read_tokens]. rewrite Hc. cbn. now apply IH.
Qed.

(** X10.  Arguments that are absent, empty or made of blanks only add
    nothing to the command: the child is launched with the tool name as
    its whole argument vector. *)
Theorem run_tool_blank_arguments
        (h : Host) (cfg : Config) (tool : string) (args : option string)
        (timeout : option Z) (working_dir : option string) (w : World) (t : Z) :
  match args with Some s => all_whitespace s = true | None => True end ->
  validate_tool_access h cfg tool = true ->
  resolve_timeout cfg timeout = Some t ->
  dir_ready h w (chosen_dir cfg working_dir) ->
  exists l,
    spawned (snd (run_tool h cfg tool args timeout working_dir w))
    = (spawned w ++ [l])%list /\
    argv (call l) = [tool].
Proof.
  intros Hblank Hv Ht Hd.
  assert (Htok : tokens_of args = Some []).
  { unfold tokens_of. destruct args as [s|]; [|reflexivity]. cbn [opt_truthy default].
    destruct (PyStr.truthy s); [|reflexivity]. now apply shlex_blank. }
  rewrite (run_tool_launch h cfg tool args timeout working_dir w t [] Hv Ht Htok Hd).
  cbn [snd spawned]. eexists. split; reflexivity.
Qed.

Lemma run_tool_blank_arguments_witness :
  exists l,
    spawned (snd (run_tool Demo.host default_config "nmap" (Some "   ") None None
                           Demo.boot)) = [l] /\
    argv (call l) = ["nmap"].
Proof.
  apply (run_tool_blank_arguments Demo.host default_config "nmap" (Some "   ") None None
           Demo.boot 60%Z).
  - reflexivity.
  - reflexivity.
  - reflexivity.
  - right. reflexivity.
Defined.

(** X11.  The two entry points disagree on a timeout below one second:
    POST /run refuses it with 422 and nothing happens, while run_tool,
    which only compares with the ceiling, launches the child with that
    timeout, zero and negative values included. *)
Theorem run_tool_timeout_below_one
        (h : Host) (cfg : Config) (tool : string) (args : option string)
        (working_dir : option string) (w : World) (t : Z) (tokens : list string) :
  (t < 1)%Z ->
  (t <= max_timeout cfg)%Z ->
  validate_tool_access h cfg tool = true ->
  tokens_of args = Some tokens ->
  dir_ready h w (chosen_dir cfg working_dir) ->
  post_run h cfg tool args (Some t) working_dir w = (HTTPException 422, w) /\
  exists l,
    spawned (snd (run_tool h cfg tool args (Some t) working_dir w))
    = (spawned w ++ [l])%list /\
    timeout (call l) = t.
Proof.
  intros Hlow Hmax Hv Htok Hd. split.
  - unfold post_run, new_request, request_errors, timeout_field_ok.
    assert (Hge : (1 <=? t)%Z = false) by now apply Z.leb_gt.
    rewrite Hge. cbn [andb].
    destruct (validate_tool tool), (validate_args args); reflexivity.
  - assert (Ht : resolve_timeout cfg (Some t) = Some t).
    { unfold resolve_timeout. destruct (t >? max_timeout cfg)%Z eqn:E; [|reflexivity].
      apply Z.gtb_lt in E. lia. }
    rewrite (run_tool_launch h cfg tool args (Some t) working_dir w t tokens Hv Ht Htok Hd).
    cbn [snd spawned]. eexists. split; reflexivity.
Qed.

Lemma run_tool_timeout_below_one_witness :
  post_run Demo.host default_config "nmap" (Some "-V") (Some 0%Z) None Demo.boot
  = (HTTPException 422, Demo.boot) /\
  exists l,
    spawned (snd (run_tool Demo.host default_config "nmap" (Some "-V") (Some 0%Z) None
                           Demo.boot)) = [l] /\
    timeout (call l) = 0%Z.
Proof.
  apply (run_tool_timeout_below_one Demo.host default_config "nmap" (Some "-V") None
           Demo.boot 0%Z ["-V"]).
  - lia.
  - cbn. lia.
  - reflexivity.
  - reflexivity.
  - right. reflexivity.
Defined.

Section ToolInfo.

Variable h : Host.
Variable cfg : Config.

Lemma get_tool_info_unavailable (tool_name : string) (w : World) :
  validate_tool_access h cfg tool_name = false ->
  get_tool_info h cfg tool_name w = (Ok None, w).
Proof. intros Hv. unfold get_tool_info. now rewrite Hv. Qed.

Lemma access_resolves (tool_name : string) :
  validate_tool_access h cfg tool_name = true ->
  exists p, resolve h tool_name = Some p /\ which h tool_name = Some p
            /\ PyStr.truthy p = true.
Proof.
  unfold validate_tool_access, resolve.
  destruct (str_in tool_name (allowed_tools cfg)); [|discriminate]. cbn [negb].
  destruct (which h tool_name) as [p|]; [|discriminate].
  destruct (PyStr.truthy p) eqn:Htruthy; [|discriminate]. cbn [negb andb].
  destruct (access_x h p); [|discriminate]. intros _. now exists p.
Qed.

Lemma get_tool_info_available (tool_name : string) (w : World) (p : string) :
  validate_tool_access h cfg tool_name = true ->
  resolve h tool_name = Some p ->
  get_tool_info h cfg tool_name w
  = (match probe_version (child h (version_probe tool_name)) with
     | Ok v => Ok (Some {| name := tool_name; path := p; version := v;
                           description := None; available := true |})
     | Raise e => Raise e
     end, after_probe w tool_name).
Proof.
  intros Hv Hres. destruct (access_resolves _ Hv) as (p' & Hres' & Hwhich & Htruthy).
  rewrite Hres in Hres'. injection Hres' as <-.
  unfold get_tool_info. rewrite Hv, Hwhich, Htruthy. cbn [negb].
  unfold subprocess_run, after_probe, probe_version. fold (version_probe tool_name).
  destruct (child h (version_probe tool_name)) as [r| | |]; try reflexivity.
  now destruct (returncode r =? 0)%Z.
Qed.

End ToolInfo.

(** X12.  Asking for the description of a tool that fails the access
    check launches nothing and changes nothing: the tool manager returns
    None, the MCP tool get_tool_info raises its ValueError, and
    GET /tools/{tool_name} answers 404. *)
Theorem describe_unavailable_tool
        (h : Host) (cfg : Config) (tool : string) (w : World) :
  validate_tool_access h cfg tool = false ->
  get_tool_info h cfg tool w = (Ok None, w) /\
  mcp_get_tool_info h cfg tool w = (Ok NotAvailable, w) /\
  get_tool_info_http h cfg tool w = ((404%Z, None), w).
Proof.
  intros Hv. pose proof (get_tool_info_unavailable h cfg tool w Hv) as Hget.
  split; [exact Hget|]. split.
  - unfold mcp_get_tool_info, bind. now rewrite Hget.
  - unfold get_tool_info_http. now rewrite Hget.
Qed.

Lemma describe_unavailable_tool_witness :
  get_tool_info Demo.host default_config "rm" Demo.boot = (Ok None, Demo.boot) /\
  mcp_get_tool_info Demo.host default_config "rm" Demo.boot
  = (Ok NotAvailable, Demo.boot) /\
  get_tool_info_http Demo.host default_config "rm" Demo.boot
  = ((404%Z, None), Demo.boot).
Proof.
  apply (describe_unavailable_tool Demo.host default_config "rm" Demo.boot).
  reflexivity.
Defined.



(** X13.  Describing a tool that passes the access check runs it once,
    as [tool, --version] with a timeout of five seconds, without a shell
    and with the environment and the working directory of the server
    itself, not those of the sandbox.  The description carries the path
    found on the search path; the version is the first line of the
    stripped standard output when the exit code is 0 and is absent for
    another exit code, a timeout or a missing file; any other OS error
    is let through. *)
Theorem get_tool_info_probe
        (h : Host) (cfg : Config) (tool_name : string) (w : World) :
  validate_tool_access h cfg tool_name = true ->
  exists p,
    which h tool_name = Some p /\
    let probe := {| argv := [tool_name; "--version"]; cwd := None; env := None;
                    timeout := 5; shell := false |} in
    let info v := {| name := tool_name; path := p; version := v;
                     description := None; available := true |} in
    get_tool_info h cfg tool_name w
    = (match child h probe with
       | Exited r =>
           Ok (Some (info (if (returncode r =? 0)%Z
                           then Some (first_line (stdout r)) else None)))
       | TimedOut | NotFound => Ok (Some (info None))
       | Failed => Raise OSError
       end,
       {| dirs := dirs w;
          spawned := spawned w ++ [ {| call := probe; dirs_at_launch := dirs w |} ] |}).
Proof.
  intros Hv. destruct (access_resolves h cfg _ Hv) as (p & Hres & Hwhich & _).
  exists p. split; [exact Hwhich|]. cbv zeta.
  rewrite (get_tool_info_available h cfg tool_name w p Hv Hres).
  fold (version_probe tool_name). unfold after_probe, probe_version.
  now destruct (child h (version_probe tool_name)).
Qed.

Lemma get_tool_info_probe_witness :
  fst (get_tool_info Demo.host default_config "nmap" Demo.boot)
  = Ok (Some {| name := "nmap"; path := "/usr/bin/nmap";
                version := Some "Nmap version 7.94"; description := None;
                available := true |}) /\
  call <$> spawned (snd (get_tool_info Demo.host default_config "nmap" Demo.boot))
  = [ {| argv := ["nmap"; "--version"]; cwd := None; env := None;
         timeout := 5; shell := false |} ].
Proof.
  destruct (get_tool_info_probe Demo.host default_config "nmap" Demo.boot eq_refl)
    as (p & Hwhich & Hget).
  injection Hwhich as <-. cbv zeta in Hget. rewrite Hget. split; reflexivity.
Defined.

Lemma split_head_no_sep (sep : ascii) (s : string) :
  PyStr.has_char sep (hd "" (PyStr.split sep s)) = false.
Proof.
  induction s as [|c s IH]; [reflexivity|]. cbn [PyStr.split].
  destruct (Ascii.eqb c sep) eqn:E; [reflexivity|].
  destruct (PyStr.split sep s) as [|f fs]; cbn [hd] in *.
  - cbn. rewrite Ascii.eqb_sym, E. reflexivity.
  - cbn [PyStr.has_char]. now rewrite Ascii.eqb_sym, E, IH.
Qed.

Lemma first_line_no_newline (out : string) :
  PyStr.has_char Re.newline (first_line out) = false.
Proof.
  unfold first_line.
  pose proof (split_head_no_sep Re.newline (PyStr.strip out)) as H.
  now destruct (PyStr.split Re.newline (PyStr.strip out)).
Qed.

(** X14.  Whatever a tool prints for its version query, the version that
    get_tool_info reports has no newline in it. *)
Theorem get_tool_info_version_one_line
        (h : Host) (cfg : Config) (tool_name : string) (w : World)
        (info : ToolInfo) (v : string) :
  fst (get_tool_info h cfg tool_name w) = Ok (Some info) ->
  version info = Some v ->
  PyStr.has_char Re.newline v = false.
Proof.
  destruct (validate_tool_access h cfg tool_name) eqn:Hv.
  - destruct (access_resolves h cfg _ Hv) as (p & Hres & _).
    rewrite (get_tool_info_available h cfg tool_name w p Hv Hres). cbn [fst].
    unfold probe_version.
    destruct (child h (version_probe tool_name)) as [r| | |]; try discriminate.
    + destruct (returncode r =? 0)%Z.
      * intros [= <-]. cbn [version]. intros [= <-]. apply first_line_no_newline.
      * intros [= <-]. discriminate.
    + intros [= <-]. discriminate.
    + intros [= <-]. discriminate.
  - rewrite get_tool_info_unavailable by assumption. discriminate.
Qed.

(** A banner of several lines: the version is its first line, stripped. *)
Lemma get_tool_info_version_one_line_witness :
  exists info,
    fst (get_tool_info Hosts.verbose default_config "nmap" Demo.boot) = Ok (Some info) /\
    version info = Some "Nmap version 7.94" /\
    PyStr.has_char Re.newline "Nmap version 7.94" = false.
Proof.
  eexists. split; [reflexivity|]. split; [reflexivity|].
  apply (get_tool_info_version_one_line Hosts.verbose default_config "nmap" Demo.boot
           _ _ eq_refl eq_refl).
Defined.

Section Listing.

Variable h : Host.
Variable cfg : Config.

Lemma entry_of_fields (n : string) :
  name (entry_of h n) = n /\ available (entry_of h n) = resolves h n.
Proof. unfold entry_of, resolves. now destruct (resolve h n). Qed.

Lemma available_entries (names : list string) :
  name <$> List.filter available (entry_of h <$> names)
  = List.filter (resolves h) names.
Proof.
  induction names as [|n names IH]; [reflexivity|].
  destruct (entry_of_fields n) as [Hn Ha].
  rewrite fmap_cons. cbn [List.filter]. rewrite Ha.
  destruct (resolves h n); [|exact IH]. rewrite fmap_cons, Hn. now f_equal.
Qed.

Lemma probed_cons_yes (w : World) (n : string) (names : list string) :
  resolves h n = true ->
  probed h w (n :: names) = probed h (after_probe w n) names.
Proof.
  intros Hr. unfold probed, after_probe. cbn [List.filter dirs spawned]. rewrite Hr.
  cbn [map]. now rewrite <- app_assoc.
Qed.

Lemma probed_cons_no (w : World) (n : string) (names : list string) :
  resolves h n = false -> probed h w (n :: names) = probed h w names.
Proof. intros Hr. unfold probed. cbn [List.filter]. now rewrite Hr. Qed.

(** The loop of list_tools over names of the allow-list none of whose
    probes ends in an error that get_tool_info lets through. *)
Lemma for_each_entries (names : list string) (w : World) :
  (forall n, n ∈ names -> n ∈ allowed_tools cfg) ->
  (forall n, n ∈ names -> child h (version_probe n) <> Failed) ->
  for_each
    (fun tool_name =>
       tool_info <- get_tool_info h cfg tool_name ;;
       match tool_info with
       | Some info => ret info
       | None => ret {| name := tool_name; path := ""; version := None;
                        description := None; available := false |}
       end) names w
  = (Ok (entry_of h <$> names), probed h w names).
Proof.
  revert w. induction names as [|n names IH]; intros w Hall Hprobe.
  - unfold probed. cbn. rewrite app_nil_r. now destruct w.
  - assert (Hn : n ∈ allowed_tools cfg) by (apply Hall; left).
    assert (Hp : child h (version_probe n) <> Failed) by (apply Hprobe; left).
    assert (IH' : forall w1, for_each
                    (fun tool_name =>
                       tool_info <- get_tool_info h cfg tool_name ;;
                       match tool_info with
                       | Some info => ret info
                       | None => ret {| name := tool_name; path := ""; version := None;
                                        description := None; available := false |}
                       end) names w1
                  = (Ok (entry_of h <$> names), probed h w1 names)).
    { intros w1. apply IH; intros m Hm; [apply Hall | apply Hprobe]; now right. }
    cbn [for_each]. unfold bind at 1. unfold bind at 1.
    pose proof (access_is_resolve h cfg n Hn) as Hacc.
    rewrite fmap_cons.
    destruct (resolve h n) as [p|] eqn:Hres.
    + rewrite (get_tool_info_available h cfg n w p Hacc Hres).
      rewrite (probed_cons_yes w n names) by (unfold resolves; now rewrite Hres).
      assert (He : entry_of h n
                   = {| name := n; path := p;
                        version := match probe_version (child h (version_probe n)) with
                                   | Ok v => v
                                   | Raise _ => None
                                   end;
                        description := None; available := true |})
        by (unfold entry_of; now rewrite Hres).
      rewrite He.
      destruct (child h (version_probe n)) as [r| | |] eqn:Hc; [| | |contradiction];
        cbn [probe_version]; unfold ret at 1; unfold bind at 1; now rewrite IH'.
    + rewrite (get_tool_info_unavailable h cfg n w Hacc).
      rewrite (probed_cons_no w n names) by (unfold resolves; now rewrite Hres).
      assert (He : entry_of h n
                   = {| name := n; path := ""; version := None;
                        description := None; available := false |})
        by (unfold entry_of; now rewrite Hres).
      rewrite He. unfold ret at 1. unfold bind at 1. now rewrite IH'.
Qed.

(** One probe that fails with another OS error makes the loop fail. *)
Lemma for_each_fails (names : list string) (w : World) (bad : string) :
  (forall n, n ∈ names -> n ∈ allowed_tools cfg) ->
  bad ∈ names ->
  resolves h bad = true ->
  child h (version_probe bad) = Failed ->
  exists w',
    for_each
      (fun tool_name =>
         tool_info <- get_tool_info h cfg tool_name ;;
         match tool_info with
         | Some info => ret info
         | None => ret {| name := tool_name; path := ""; version := None;
                          description := None; available := false |}
         end) names w
    = (Raise OSError, w').
Proof.
  revert w. induction names as [|n names IH]; intros w Hall Hbad Hres Hfail.
  - now apply elem_of_nil in Hbad.
  - assert (Hn : n ∈ allowed_tools cfg) by (apply Hall; left).
    pose proof (access_is_resolve h cfg n Hn) as Hacc.
    cbn [for_each]. unfold bind at 1. unfold bind at 1.
    destruct (resolve h n) as [p|] eqn:Hrn.
    + rewrite (get_tool_info_available h cfg n w p Hacc Hrn).
      destruct (child h (version_probe n)) as [r| | |] eqn:Hc;
        cbn [probe_version]; [| | |now eexists].
      all: apply elem_of_cons in Hbad as [->|Hin]; [congruence|].
      all: destruct (IH (after_probe w n)) as [w' Hw']; try assumption;
        [intros m Hm; apply Hall; now right|].
      all: unfold ret at 1; unfold bind at 1; rewrite Hw'; now eexists.
    + rewrite (get_tool_info_unavailable h cfg n w Hacc).
      apply elem_of_cons in Hbad as [->|Hin].
      { unfold resolves in Hres. now rewrite Hrn in Hres. }
      destruct (IH w) as [w' Hw']; try assumption;
        [intros m Hm; apply Hall; now right|].
      unfold ret at 1. unfold bind at 1. rewrite Hw'. now eexists.
Qed.

Lemma list_tools_entries (w : World) :
  (forall n, n ∈ allowed_tools cfg -> child h (version_probe n) <> Failed) ->
  list_tools h cfg w = (Ok (entry_of h <$> allowed_tools cfg),
                        probed h w (allowed_tools cfg)).
Proof. intros Hprobe. unfold list_tools. now apply for_each_entries. Qed.

Lemma list_tools_fails (w : World) (bad : string) :
  bad ∈ allowed_tools cfg ->
  resolves h bad = true ->
  child h (version_probe bad) = Failed ->
  exists w', list_tools h cfg w = (Raise OSError, w').
Proof. intros. unfold list_tools. now apply for_each_fails with (bad := bad). Qed.

End Listing.

(** X15.  When no version probe ends in an error that get_tool_info
    lets through, listing the tools executes every tool of
    the allow-list that resolves, once, with --version, in the order of
    the allow-list; it executes nothing else and makes no directory. *)
Theorem list_tools_runs_each_resolvable_tool (h : Host) (cfg : Config) (w : World) :
  (forall n, n ∈ allowed_tools cfg -> child h (version_probe n) <> Failed) ->
  let w' := snd (list_tools h cfg w) in
  call <$> drop (length (spawned w)) (spawned w')
  = version_probe <$> List.filter (resolves h) (allowed_tools cfg) /\
  take (length (spawned w)) (spawned w') = spawned w /\
  dirs w' = dirs w.
Proof.
  intros Hprobe w'. subst w'. rewrite (list_tools_entries h cfg w Hprobe).
  unfold probed. cbn [snd spawned dirs].
  rewrite drop_app_length, take_app_length. repeat split.
  induction (List.filter (resolves h) (allowed_tools cfg)) as [|n l IH]; [reflexivity|].
  cbn [map]. rewrite !fmap_cons. now f_equal.
Qed.

Lemma list_tools_runs_each_resolvable_tool_witness :
  let w' := snd (list_tools Demo.host default_config Demo.boot) in
  call <$> spawned w' = [version_probe "nmap"] /\ dirs w' = dirs Demo.boot.
Proof.
  destruct (list_tools_runs_each_resolvable_tool Demo.host default_config Demo.boot)
    as (Hcalls & _ & Hdirs).
  - intros n _. cbn. discriminate.
  - split; [exact Hcalls | exact Hdirs].
Defined.

(** X16.  Under the same condition the MCP tool list_tools returns the
    names of the allow-list that resolve to an executable, in the order
    of the allow-list, and no other name. *)
Theorem mcp_list_tools_available_names (h : Host) (cfg : Config) (w : World) :
  (forall n, n ∈ allowed_tools cfg -> child h (version_probe n) <> Failed) ->
  fst (mcp_list_tools h cfg w) = Ok (List.filter (resolves h) (allowed_tools cfg)).
Proof.
  intros Hprobe. unfold mcp_list_tools, bind.
  rewrite (list_tools_entries h cfg w Hprobe).
  cbn [fst ret]. now rewrite available_entries.
Qed.

Lemma mcp_list_tools_available_names_witness :
  fst (mcp_list_tools Demo.host default_config Demo.boot) = Ok ["nmap"].
Proof.
  apply (mcp_list_tools_available_names Demo.host default_config Demo.boot).
  intros n _. cbn. discriminate.
Defined.

(** X17.  Under the same condition GET /metrics reports the size of the
    allow-list as total_tools and the number of its names that resolve
    as available_tools, which is never above the total, next to the
    limits of the configuration. *)
Theorem get_metrics_counts (h : Host) (cfg : Config) (w : World) :
  (forall n, n ∈ allowed_tools cfg -> child h (version_probe n) <> Failed) ->
  exists m,
    fst (get_metrics h cfg w) = Ok m /\
    total_tools m = length (allowed_tools cfg) /\
    available_tools m = length (List.filter (resolves h) (allowed_tools cfg)) /\
    available_tools m <= total_tools m /\
    metrics_max_timeout m = max_timeout cfg /\
    metrics_default_timeout m = default_timeout cfg /\
    metrics_max_output_size m = max_output_size cfg.
Proof.
  intros Hprobe. unfold get_metrics, bind.
  rewrite (list_tools_entries h cfg w Hprobe).
  cbn [fst ret]. eexists. split; [reflexivity|].
  cbn [total_tools available_tools metrics_max_timeout metrics_default_timeout
       metrics_max_output_size].
  assert (Hav : length (List.filter available (entry_of h <$> allowed_tools cfg))
                = length (List.filter (resolves h) (allowed_tools cfg))).
  { rewrite <- available_entries. now rewrite length_fmap. }
  rewrite length_fmap, Hav. repeat split.
  apply List.filter_length_le.
Qed.

Lemma get_metrics_counts_witness :
  exists m,
    fst (get_metrics Demo.host default_config Demo.boot) = Ok m /\
    total_tools m = 26 /\ available_tools m = 1.
Proof.
  destruct (get_metrics_counts Demo.host default_config Demo.boot)
    as (m & Hm & Htotal & Hav & _).
  - intros n _. cbn. discriminate.
  - exists m. split; [exact Hm|]. split; [exact Htotal | exact Hav].
Defined.

(** X18.  One tool of the allow-list that resolves but whose version
    probe fails with an OS error other than a missing file takes the
    whole listing down: list_tools raises that error, and so do
    GET /tools, the MCP tool list_tools and GET /metrics. *)
Theorem listing_fails_on_broken_tool
        (h : Host) (cfg : Config) (w : World) (bad : string) :
  bad ∈ allowed_tools cfg ->
  resolves h bad = true ->
  child h (version_probe bad) = Failed ->
  fst (list_tools h cfg w) = Raise OSError /\
  fst (list_tools_http h cfg w) = Raise OSError /\
  fst (mcp_list_tools h cfg w) = Raise OSError /\
  fst (get_metrics h cfg w) = Raise OSError.
Proof.
  intros Hin Hres Hfail.
  destruct (list_tools_fails h cfg w bad Hin Hres Hfail) as [w' Hw'].
  unfold list_tools_http, mcp_list_tools, get_metrics, bind. rewrite Hw'.
  now repeat split.
Qed.

Lemma listing_fails_on_broken_tool_witness :
  fst (list_tools Hosts.broken default_config Demo.boot) = Raise OSError /\
  fst (list_tools_http Hosts.broken default_config Demo.boot) = Raise OSError /\
  fst (mcp_list_tools Hosts.broken default_config Demo.boot) = Raise OSError /\
  fst (get_metrics Hosts.broken default_config Demo.boot) = Raise OSError.
Proof.
  apply (listing_fails_on_broken_tool Hosts.broken default_config Demo.boot "nmap").
  - in_list.
  - reflexivity.
  - reflexivity.
Defined.

(** X19.  Once the startup of the application has made the default
    working directory, a run_tool call without a working directory of
    its own reaches the launch whatever the host then allows in the way
    of making directories, and makes none. *)
Theorem startup_prepares_default_directory
        (h h' : Host) (cfg : Config) (w w1 : World) (tool : string)
        (args : option string) (timeout : option Z) (t : Z) (tokens : list string) :
  lifespan_startup h cfg w = (Ok tt, w1) ->
  validate_tool_access h' cfg tool = true ->
  resolve_timeout cfg timeout = Some t ->
  tokens_of args = Some tokens ->
  working_directory cfg ∈ dirs w1 /\
  dirs (snd (run_tool h' cfg tool args timeout None w1)) = dirs w1 /\
  exists l,
    spawned (snd (run_tool h' cfg tool args timeout None w1)) = (spawned w1 ++ [l])%list /\
    cwd (call l) = Some (working_directory cfg).
Proof.
  unfold lifespan_startup. rewrite makedirs_cases. intros Hstart Hv Ht Htok.
  destruct (bool_decide _ || can_mkdir h _); [|discriminate].
  injection Hstart as <-.
  assert (Hin : working_directory cfg ∈ dirs (with_dir w (working_directory cfg))).
  { rewrite with_dir_dirs. apply elem_of_union. left. now apply elem_of_singleton. }
  split; [exact Hin|].
  assert (Hd : dir_ready h' (with_dir w (working_directory cfg)) (chosen_dir cfg None))
    by now left.
  rewrite (run_tool_launch h' cfg tool args timeout None _ t tokens Hv Ht Htok Hd).
  cbn [snd dirs spawned chosen_dir]. split.
  - unfold with_dir at 1. now rewrite (bool_decide_eq_true_2 _ Hin).
  - eexists. split; reflexivity.
Qed.

Lemma startup_prepares_default_directory_witness :
  let w1 := snd (lifespan_startup Demo.host default_config Demo.boot) in
  "/tmp/kali-mcp" ∈ dirs w1 /\
  dirs (snd (run_tool Hosts.locked default_config "nmap" (Some "-V") None None w1))
  = dirs w1 /\
  exists l,
    spawned (snd (run_tool Hosts.locked default_config "nmap" (Some "-V") None None w1))
    = (spawned w1 ++ [l])%list /\
    cwd (call l) = Some "/tmp/kali-mcp".
Proof.
  intros w1.
  apply (startup_prepares_default_directory Demo.host Hosts.locked default_config
           Demo.boot w1 "nmap" (Some "-V") None 60%Z ["-V"]); reflexivity.
Defined.

(** X22.  The sandbox environment depends on the inherited environment
    through PATH, HOME, USER, SHELL, LANG and LC_ALL only: two hosts that
    agree on these six variables get the same sandbox environment for the
    same working directory, whatever else they carry. *)
Theorem sandbox_depends_on_retained_only (h1 h2 : Host) (working_dir : string) :
  (forall k : string,
      k ∈ ["PATH"; "HOME"; "USER"; "SHELL"; "LANG"; "LC_ALL"] ->
      environ h1 !! k = environ h2 !! k) ->
  create_sandbox_environment h1 working_dir = create_sandbox_environment h2 working_dir.
Proof.
  intros Hagree. rewrite !sandbox_environment_keep.
  apply map_eq. intros k.
  destruct (decide (k = "LD_LIBRARY_PATH")) as [->|H1];
    [now rewrite !lookup_insert_eq|].
  rewrite !(lookup_insert_ne _ "LD_LIBRARY_PATH") by congruence.
  destruct (decide (k = "LD_PRELOAD")) as [->|H2]; [now rewrite !lookup_insert_eq|].
  rewrite !(lookup_insert_ne _ "LD_PRELOAD") by congruence.
  destruct (decide (k = "PWD")) as [->|H3]; [now rewrite !lookup_insert_eq|].
  rewrite !(lookup_insert_ne _ "PWD") by congruence.
  destruct (decide (k ∈ restricted_vars)) as [Hin|Hout].
  - rewrite !foldl_keep_inside by assumption.
    rewrite Hagree; [reflexivity|].
    apply list_elem_of_In in Hin. cbn [restricted_vars In] in Hin.
    apply list_elem_of_In. cbn [In]. intuition congruence.
  - now rewrite !foldl_keep_outside by assumption.
Qed.

Lemma sandbox_depends_on_retained_only_witness :
  let quiet := {| which := which Demo.host; access_x := access_x Demo.host;
                  environ := <[ "PATH" := "/usr/bin" ]> (<[ "HOME" := "/root" ]> ∅);
                  can_mkdir := can_mkdir Demo.host; child := child Demo.host |} in
  create_sandbox_environment Demo.host "/tmp/test"
  = create_sandbox_environment quiet "/tmp/test".
Proof.
  intros quiet.
  apply (sandbox_depends_on_retained_only Demo.host quiet "/tmp/test").
  intros k Hk. apply list_elem_of_In in Hk. cbn [In] in Hk.
  destruct Hk as [<-|[<-|[<-|[<-|[<-|[<-|[]]]]]]]; reflexivity.
Defined.

Lemma normpath_absolute (p : string) :
  PyStr.startswith "/" p = true -> PyStr.startswith "/" (PosixPath.normpath p) = true.
Proof.
  intros Hp. unfold PosixPath.normpath, PosixPath.initial_slashes. rewrite Hp.
  destruct p as [|c p]; [discriminate|]. cbn [String.eqb].
  destruct (PyStr.startswith "//" (String c p) && negb (PyStr.startswith "///" (String c p)));
    reflexivity.
Qed.

(** X24.  sanitize_path returns the empty string for the empty string,
    and for every other input a path that starts with a slash. *)
Theorem sanitize_path_absolute (path : string) :
  sanitize_path "" = "" /\
  (path <> "" -> PyStr.startswith "/" (sanitize_path path) = true).
Proof.
  split; [reflexivity|]. intros Hne. unfold sanitize_path.
  destruct path as [|c path]; [contradiction|]. cbn [PyStr.truthy negb].
  apply normpath_absolute.
  destruct (PyStr.startswith "/" (PyStr.replace "//" "/"
              (PyStr.replace ".." "" (String c path)))) eqn:E; cbn [negb];
    [exact E | reflexivity].
Qed.

Lemma sanitize_path_absolute_witness :
  PyStr.startswith "/" (sanitize_path "relative/path") = true.
Proof.
  destruct (sanitize_path_absolute "relative/path") as [_ Habs].
  apply Habs. discriminate.
Defined.

Section DoubledSeparator.

Lemma contains_slashes_cons (c : ascii) (s : string) :
  PyStr.contains "//" (String c s)
  = (Ascii.eqb "/" c && PyStr.startswith "/" s) || PyStr.contains "//" s.
Proof. reflexivity. Qed.

Lemma startswith_slash_cons (c : ascii) (s : string) :
  PyStr.startswith "/" (String c s) = Ascii.eqb "/" c.
Proof. cbn. apply andb_true_r. Qed.

Lemma has_slash_cons (c : ascii) (s : string) :
  PyStr.has_char "/" (String c s) = Ascii.eqb "/" c || PyStr.has_char "/" s.
Proof. reflexivity. Qed.

(** No field of a split holds the separator. *)
Lemma split_fields_no_sep (s : string) :
  Forall (fun f => PyStr.has_char "/" f = false) (PyStr.split "/" s).
Proof.
  induction s as [|c s IH]; [now repeat constructor|]. cbn [PyStr.split].
  destruct (Ascii.eqb c "/") eqn:E; [now constructor|].
  destruct (PyStr.split "/" s) as [|f fs].
  - constructor; [|constructor]. rewrite has_slash_cons, Ascii.eqb_sym, E. reflexivity.
  - inversion IH as [|? ? Hf Hfs]; subst. constructor; [|assumption].
    now rewrite has_slash_cons, Ascii.eqb_sym, E, Hf.
Qed.

Lemma norm_comps_kept (initial : nat) (comps new_comps : list string) :
  Forall (fun f => PyStr.has_char "/" f = false) comps ->
  Forall kept_component new_comps ->
  Forall kept_component (PosixPath.norm_comps initial comps new_comps).
Proof.
  revert new_comps. induction comps as [|comp rest IH]; intros acc Hc Ha; [exact Ha|].
  inversion Hc as [|? ? Hcomp Hrest]; subst. cbn [PosixPath.norm_comps].
  destruct (String.eqb comp "") eqn:Hempty; cbn [orb]; [now apply IH|].
  destruct (String.eqb comp "."); [now apply IH|].
  apply String.eqb_neq in Hempty.
  destruct (negb (String.eqb comp "..") || _ || _).
  - apply IH; [assumption|]. constructor; [now split | assumption].
  - destruct acc as [|a acc']; [now apply IH|].
    inversion Ha; subst. now apply IH.
Qed.

Lemma slash_free_clean (p : string) :
  PyStr.has_char "/" p = false ->
  PyStr.contains "//" p = false /\ PyStr.startswith "/" p = false.
Proof.
  induction p as [|c p IH]; [now split|].
  rewrite has_slash_cons. intros H. apply orb_false_elim in H as [Hc Hp].
  destruct (IH Hp) as [IHc _].
  rewrite contains_slashes_cons, startswith_slash_cons, Hc, IHc. now split.
Qed.

Lemma append_slash_clean (p rest : string) :
  PyStr.has_char "/" p = false ->
  PyStr.contains "//" rest = false ->
  PyStr.startswith "/" rest = false ->
  PyStr.contains "//" (p ++ String "/" rest) = false.
Proof.
  intros Hp Hc Hs. induction p as [|c p IH].
  - change ("" ++ String "/" rest) with (String "/" rest).
    now rewrite contains_slashes_cons, Hs, Hc.
  - rewrite has_slash_cons in Hp. apply orb_false_elim in Hp as [Hch Hp].
    change (String c p ++ String "/" rest) with (String c (p ++ String "/" rest)).
    now rewrite contains_slashes_cons, Hch, (IH Hp).
Qed.

Lemma join_kept_clean (comps : list string) :
  Forall kept_component comps ->
  PyStr.contains "//" (PyStr.join "/" comps) = false /\
  PyStr.startswith "/" (PyStr.join "/" comps) = false.
Proof.
  induction 1 as [|p ps [Hne Hp] Hps [IHc IHs]]; [now split|].
  destruct ps as [|q ps]; [now apply slash_free_clean|].
  change (PyStr.join "/" (p :: q :: ps)) with (p ++ String "/" (PyStr.join "/" (q :: ps))).
  split; [now apply append_slash_clean|].
  destruct p as [|c p]; [contradiction|].
  change (String c p ++ ?x) with (String c (p ++ x)).
  rewrite startswith_slash_cons. rewrite has_slash_cons in Hp.
  now apply orb_false_elim in Hp as [Hc _].
Qed.

(** After its first character, what normpath makes of an absolute path
    has no doubled slash. *)
Lemma normpath_tail_clean (p : string) (c : ascii) (rest : string) :
  PyStr.startswith "/" p = true ->
  PosixPath.normpath p = String c rest ->
  PyStr.contains "//" rest = false.
Proof.
  intros Hp. unfold PosixPath.normpath, PosixPath.initial_slashes. rewrite Hp.
  destruct p as [|c0 p]; [discriminate|]. cbn [String.eqb].
  set (q := String c0 p).
  destruct (join_kept_clean
              (rev (PosixPath.norm_comps
                      (if PyStr.startswith "//" q && negb (PyStr.startswith "///" q)
                       then 2 else 1) (PyStr.split PosixPath.sep q) [])))
    as [Hc Hs].
  { apply Forall_rev. apply norm_comps_kept; [apply split_fields_no_sep | constructor]. }
  set (joined := PyStr.join "/" _) in *.
  destruct (PyStr.startswith "//" q && negb (PyStr.startswith "///" q)).
  - change (PosixPath.repeat_sep 2 ++ joined) with (String "/" (String "/" joined)).
    cbn [Nat.eqb String.eqb]. intros [= _ <-].
    now rewrite contains_slashes_cons, Hs, Hc.
  - change (PosixPath.repeat_sep 1 ++ joined) with (String "/" joined).
    cbn [Nat.eqb String.eqb]. intros [= _ <-]. exact Hc.
Qed.

End DoubledSeparator.

(** X25.  The only place where sanitize_path can leave a doubled
    separator is the very front of its result: after the first
    character, the result has none. *)
Theorem sanitize_path_double_separator_only_in_front
        (path : string) (c : ascii) (rest : string) :
  sanitize_path path = String c rest ->
  PyStr.contains "//" rest = false.
Proof.
  unfold sanitize_path. destruct (PyStr.truthy path); cbn [negb]; [|discriminate].
  apply normpath_tail_clean.
  destruct (PyStr.startswith "/" (PyStr.replace "//" "/" (PyStr.replace ".." "" path)))
    eqn:E; cbn [negb]; [exact E | reflexivity].
Qed.

Lemma sanitize_path_double_separator_only_in_front_witness :
  sanitize_path "../../../etc//passwd" = "//etc/passwd" /\
  PyStr.contains "//" "/etc/passwd" = false.
Proof.
  split; [reflexivity|].
  apply (sanitize_path_double_separator_only_in_front "../../../etc//passwd" "/"
           "/etc/passwd").
  reflexivity.
Defined.

(** X27.  On the route POST /run the refused characters stay out of the
    argument vector: when the route launches a child, the vector is the
    tool name followed by tokens none of which holds one of
    ; & | ` $ ( ) < >. *)
Theorem post_run_argv_clean
        (h : Host) (cfg : Config) (tool : string) (args : option string)
        (timeout : option Z) (working_dir : option string) (w : World) (l : Launch) :
  spawned (snd (post_run h cfg tool args timeout working_dir w))
  = (spawned w ++ [l])%list ->
  exists tokens,
    argv (call l) = tool :: tokens /\
    Forall (fun tok => existsb (fun char => PyStr.has_char char tok) dangerous_chars
                       = false) tokens.
Proof.
  assert (Hno : forall ls : list Launch, ls <> (ls ++ [l])%list).
  { intros ls E. apply (f_equal length) in E. rewrite length_app in E. cbn in E. lia. }
  unfold post_run, new_request.
  destruct (request_errors cfg tool args timeout) as [|e errs] eqn:E;
    [|intros Hl; now apply Hno in Hl].
  rewrite run_tool_http_world. cbn [req_tool req_args req_timeout req_working_dir].
  rewrite run_tool_cases. unfold run_tool_steps.
  destruct (validate_tool_access h cfg tool); cbn [negb snd];
    [|intros Hl; now apply Hno in Hl].
  destruct (resolve_timeout cfg timeout) as [t|]; [|intros Hl; now apply Hno in Hl].
  destruct (bool_decide _ || can_mkdir h _); [|intros Hl; now apply Hno in Hl].
  destruct (tokens_of args) as [tokens|] eqn:Htok; cbn [snd spawned].
  - intros Hl. apply app_inv_head in Hl. injection Hl as <-.
    exists tokens. split; [reflexivity|].
    unfold tokens_of in Htok. destruct args as [s|]; cbn [opt_truthy default] in Htok;
      [|injection Htok as <-; constructor].
    destruct (PyStr.truthy s); [|injection Htok as <-; constructor].
    assert (Hsafe : existsb (fun char => PyStr.has_char char s) dangerous_chars = false).
    { unfold request_errors, validate_args in E.
      destruct (existsb _ dangerous_chars); [|reflexivity].
      now destruct (validate_tool tool). }
    assert (Hall : forall ch, In ch dangerous_chars ->
                   Forall (fun tok => PyStr.has_char ch tok = false) tokens).
    { intros ch Hch. apply (read_tokens_clean ch s Shlex.White Shlex.White false "");
        try exact I; try reflexivity; [|exact Htok].
      destruct (PyStr.has_char ch s) eqn:Hs; [|reflexivity].
      assert (existsb (fun char => PyStr.has_char char s) dangerous_chars = true)
        by (apply existsb_exists; eauto).
      congruence. }
    apply Forall_forall. intros tok Htokin.
    destruct (existsb (fun char => PyStr.has_char char tok) dangerous_chars) eqn:Hex;
      [|reflexivity].
    apply existsb_exists in Hex as (ch & Hch & Hhas).
    specialize (Hall ch Hch). rewrite Forall_forall in Hall.
    now rewrite (Hall tok Htokin) in Hhas.
  - rewrite with_dir_spawned. intros Hl. now apply Hno in Hl.
Qed.

Lemma post_run_argv_clean_witness :
  exists l tokens,
    spawned (snd (post_run Demo.host default_config "nmap" (Some "-sS '10.0.0.1'")
                           None None Demo.boot)) = [l] /\
    argv (call l) = "nmap" :: tokens /\
    Forall (fun tok => existsb (fun char => PyStr.has_char char tok) dangerous_chars
                       = false) tokens.
Proof.
  eexists. 
  destruct (post_run_argv_clean Demo.host default_config "nmap" (Some "-sS '10.0.0.1'")
              None None Demo.boot _ eq_refl) as (tokens & Hargv & Hclean).
  exists tokens. split; [reflexivity|]. split; [exact Hargv | exact Hclean].
Defined.

Section AllowList.

Lemma insert_sorted_perm (x : string) (l : list string) : insert_sorted x l ≡ₚ x :: l.
Proof.
  induction l as [|y l IH]; [reflexivity|]. cbn [insert_sorted].
  destruct (String.leb x y); [reflexivity|].
  rewrite IH. apply Permutation_swap.
Qed.

Lemma sorted_perm (l : list string) : sorted l ≡ₚ l.
Proof.
  induction l as [|x l IH]; [reflexivity|].
  unfold sorted in *. cbn [foldr]. rewrite insert_sorted_perm. now constructor.
Qed.




End AllowList.



(** X21.  Whatever EXTRA_TOOLS holds, no tool that the configuration was
    given (or no default tool) leaves the allow-list; and without
    EXTRA_TOOLS, or with an empty one, the list is kept as it is, in its
    order. *)
Theorem post_init_keeps_given_tools
        (given : option (list string)) (environ : gmap string string) :
  (forall t, t ∈ default (allowed_tools default_config) given ->
             t ∈ post_init_allowed_tools given environ) /\
  (environ !! "EXTRA_TOOLS" = None \/ environ !! "EXTRA_TOOLS" = Some "" ->
   post_init_allowed_tools given environ = default (allowed_tools default_config) given).
Proof.
  unfold post_init_allowed_tools. split.
  - intros t Ht. destruct (environ !! "EXTRA_TOOLS") as [extra|]; [|exact Ht].
    destruct (PyStr.truthy extra); [|exact Ht].
    rewrite sorted_perm, elem_of_remove_dups. apply elem_of_app. now left.
  - intros [-> | ->]; reflexivity.
Qed.

Lemma post_init_keeps_given_tools_witness :
  "nmap" ∈ post_init_allowed_tools None (<[ "EXTRA_TOOLS" := "zmap" ]> ∅) /\
  post_init_allowed_tools None ∅ = allowed_tools default_config.
Proof.
  destruct (post_init_keeps_given_tools None (<[ "EXTRA_TOOLS" := "zmap" ]> ∅))
    as [Hkeep _].
  destruct (post_init_keeps_given_tools None ∅) as [_ Hsame].
  split.
  - apply Hkeep. in_list.
  - apply Hsame. left. reflexivity.
Defined.
